(** * dakota.py: the generic DAKOTA driver, embedded and verified

    The module binds a user driver object to the DAKOTA engine.  The engine
    only reads a flat input file, so [write_input] stores the driver in the
    module-level weak dictionary [_USER_DATA] under [str(id(data))] and
    writes that string into the file; [dakota_callback] later recovers the
    driver with [fetch_data] and forwards the request to it.

    The embedding is a state-and-exception monad over a [world] that holds
    the object heap, the weak dictionary, the file system, the records made
    by [logging.error] and the calls made into [pyDAKOTA]. *)

From Stdlib Require Import String Ascii ZArith List Lia.
From stdpp Require Import base option list gmap strings pretty fin_maps.

Local Open Scope Z_scope.

(** ** Python values *)

Module Py.

(** The values that travel in an evaluation request: scalars, and flat
    lists of scalars.  Scalars are hashable, so they can be dictionary
    keys. *)
Inductive atom :=
| None_
| Int (z : Z)
| Str (s : string).

Inductive val :=
| Atom (a : atom)
| List (l : list atom).

#[global] Instance atom_eq_dec : EqDecision atom.
Proof. solve_decision. Defined.

Definition atom_to_sum (a : atom) : unit + (Z + string) :=
  match a with
  | None_ => inl tt
  | Int z => inr (inl z)
  | Str s => inr (inr s)
  end.

Definition atom_of_sum (x : unit + (Z + string)) : atom :=
  match x with
  | inl _ => None_
  | inr (inl z) => Int z
  | inr (inr s) => Str s
  end.

#[global] Instance atom_countable : Countable atom.
Proof.
  apply (inj_countable' atom_to_sum atom_of_sum).
  by intros [].
Defined.

(** [str(x)] on a scalar. *)
Definition str (a : atom) : string :=
  match a with
  | None_ => "None"
  | Int z => pretty z
  | Str s => s
  end.

(** [bool(x)]: [None], [0], the empty string and the empty list are false. *)
Definition truthy (v : val) : bool :=
  match v with
  | Atom None_ => false
  | Atom (Int z) => negb (z =? 0)
  | Atom (Str s) => negb (String.eqb s "")
  | List l => match l with [] => false | _ :: _ => true end
  end.

(** An exception in flight: its class, its argument and the traceback it
    carries ([None] when the interpreter has not been handed one). *)
Record exn := Exn {
  exn_type : string;
  exn_value : atom;
  exn_traceback : option (list string);
}.

Inductive outcome (A : Type) :=
| Ok (a : A)
| Raise (e : exn).
Arguments Ok {A} a.
Arguments Raise {A} e.

(** [raise T(msg)] *)
Definition raise_ {A} (type msg : string) : outcome A :=
  Raise (Exn type (Str msg) None).

(** [x[0]]: first element of a list, first character of a string;
    [None] and integers are not subscriptable. *)
Definition getitem0 (v : val) : outcome atom :=
  match v with
  | List (a :: _) => Ok a
  | List [] => raise_ "IndexError" "list index out of range"
  | Atom (Str (String c _)) => Ok (Str (String c EmptyString))
  | Atom (Str EmptyString) => raise_ "IndexError" "string index out of range"
  | Atom (Int _) => raise_ "TypeError" "'int' object has no attribute '__getitem__'"
  | Atom None_ => raise_ "TypeError" "'NoneType' object has no attribute '__getitem__'"
  end.

(** [pat in s] on strings. *)
Fixpoint contains (pat s : string) : bool :=
  String.prefix pat s
  || match s with
     | EmptyString => false
     | String _ s' => contains pat s'
     end.

End Py.

Import Py.

(** ** The process state *)

(** An MPI communicator, as far as this module looks at one. *)
Record communicator := Communicator {
  Get_rank : Z;
  Get_size : Z;
}.

(** The classes of driver objects: [DakotaBase] itself, or a user class
    deriving from it. *)
Inductive pyclass :=
| DakotaBase
| Subclass (name : string).

(** A [DakotaInput] is its attribute dictionary: [__init__] and [setattr]
    put lists of lines under attribute names. *)
Abbreviation DakotaInput := (gmap string (list string)).

(** A driver object on the heap.  [obj_input] is the attribute [self.input]
    ([None] if [DakotaBase.__init__] never ran); [obj_refs] counts the
    owning (strong) references to the object. *)
Record object := Object {
  obj_class : pyclass;
  obj_input : option DakotaInput;
  obj_refs : nat;
}.

(** One call into the engine library. *)
Inductive engine_call :=
| pyDAKOTA_run_dakota (infile : string) (stdout stderr : option string)
| pyDAKOTA_run_dakota_mpi (infile : string) (c : communicator)
    (stdout stderr : option string).

(** [id(x)] is the address of [x]; the heap maps the addresses of the live
    objects to them.  [_USER_DATA] is the [WeakValueDictionary]: it holds
    addresses, not references that count. *)
Record world := World {
  heap : gmap N object;
  _USER_DATA : gmap atom N;
  files : gmap string string;
  logged_errors : list string;
  engine_calls : list engine_call;
}.

Definition set_USER_DATA (f : gmap atom N → gmap atom N) (w : world) : world :=
  World (heap w) (f (_USER_DATA w)) (files w) (logged_errors w) (engine_calls w).

Definition set_heap (f : gmap N object → gmap N object) (w : world) : world :=
  World (f (heap w)) (_USER_DATA w) (files w) (logged_errors w) (engine_calls w).

Definition set_files (f : gmap string string → gmap string string) (w : world) : world :=
  World (heap w) (_USER_DATA w) (f (files w)) (logged_errors w) (engine_calls w).

(** [logging.error(msg)] *)
Definition logging_error (msg : string) (w : world) : world :=
  World (heap w) (_USER_DATA w) (files w) (logged_errors w ++ [msg]) (engine_calls w).

Definition record_call (c : engine_call) (w : world) : world :=
  World (heap w) (_USER_DATA w) (files w) (logged_errors w) (engine_calls w ++ [c]).

(** Computations of the module: they read and change the world and end
    with a value or a raised exception. *)
Definition M (A : Type) : Type := world → outcome A * world.

(** *** Weak values

    [_USER_DATA[ident] = data] stores a weak reference.  When the last
    owning reference to an object goes, the object is reclaimed and the
    callback of each weak reference to it deletes its entry. *)
Definition reclaim (d : N) (w : world) : world :=
  set_USER_DATA (filter (λ kv, kv.2 ≠ d)) (set_heap (delete d) w).

(** Dropping one owning reference to [d]. *)
Definition release (d : N) (w : world) : world :=
  match heap w !! d with
  | Some o =>
      match obj_refs o with
      | S (S n) => set_heap <[d := Object (obj_class o) (obj_input o) (S n)]> w
      | _ => reclaim d w
      end
  | None => w
  end.

(** Dropping [n] owning references. *)
Fixpoint release_n (n : nat) (d : N) (w : world) : world :=
  match n with
  | O => w
  | S n' => release_n n' d (release d w)
  end.

(** [WeakValueDictionary.__getitem__]: the entry must be there and its
    referent alive, else [KeyError]. *)
Definition weak_getitem (key : atom) (w : world) : outcome N :=
  match _USER_DATA w !! key with
  | Some d =>
      match heap w !! d with
      | Some _ => Ok d
      | None => Raise (Exn "KeyError" key None)
      end
  | None => Raise (Exn "KeyError" key None)
  end.

(** ** DakotaInput *)

Definition default_environment : list string :=
  ["tabular_graphics_data"].
Definition default_method : list string :=
  ["multidim_parameter_study"; "  partitions = 4 4"].
Definition default_model : list string :=
  ["single"].
Definition default_variables : list string :=
  ["continuous_design = 2";
   "  lower_bounds    3    5";
   "  upper_bounds    4    6";
   "  descriptors   'x1' 'x2'"].
Definition default_interface : list string :=
  ["deactivate evaluation_cache";
   "python";
   "  numpy";
   "  analysis_drivers = 'dakota:dakota_callback'"].
Definition default_responses : list string :=
  ["num_objective_functions = 1"; "no_gradients"; "no_hessians"].

Definition default_sections : DakotaInput :=
  <["environment" := default_environment]>
  (<["method" := default_method]>
  (<["model" := default_model]>
  (<["variables" := default_variables]>
  (<["interface" := default_interface]>
  (<["responses" := default_responses]> ∅))))).

(** [DakotaInput.__init__] with keyword arguments [kwargs]: the defaults,
    then [setattr(self, key, kwargs[key])] for every key, which is the union
    that prefers [kwargs]. *)
Definition DakotaInput_init (kwargs : DakotaInput) : DakotaInput :=
  kwargs ∪ default_sections.

Definition section_order : list string :=
  ["environment"; "method"; "model"; "variables"; "interface"; "responses"].

Definition tab : string := String (ascii_of_nat 9) EmptyString.
Definition nl : string := String (ascii_of_nat 10) EmptyString.

(** [out.write("\t%s\n" % line)] for each line of a section. *)
Definition write_lines (lines : list string) (out : string) : string :=
  fold_left (λ out line, out +:+ tab +:+ line +:+ nl) lines out.

(** The line that carries the identity:
    ["\t  analysis_components = '%s'\n" % ident]. *)
Definition analysis_components_content (ident : string) : string :=
  "  analysis_components = '" +:+ ident +:+ "'".

Definition analysis_components_line (ident : string) : string :=
  tab +:+ analysis_components_content ident +:+ nl.

(** The body of [with open(infile, 'w') as out], over the sections still to
    write; [out] is what has been written so far. *)
Fixpoint write_sections (self : DakotaInput) (data : option N)
    (sections : list string) (out : string) (w : world)
  : outcome unit * string * world :=
  match sections with
  | [] => (Ok tt, out, w)
  | section :: rest =>
      let out := out +:+ section +:+ nl in
      match self !! section with
      | None =>
          (raise_ "AttributeError"
             ("'DakotaInput' object has no attribute '" +:+ section +:+ "'"),
           out, w)
      | Some lines =>
          let out := write_lines lines out in
          match data with
          | Some d =>
              if String.eqb section "interface" then
                if existsb (contains "analysis_components") lines then
                  (raise_ "RuntimeError"
                     "Cannot specify both analysis_components and data",
                   out, w)
                else
                  let ident := pretty d in
                  let w := set_USER_DATA <[Str ident := d]> w in
                  let out := out +:+ analysis_components_line ident in
                  write_sections self data rest out w
              else write_sections self data rest out w
          | None => write_sections self data rest out w
          end
      end
  end.

(** [DakotaInput.write_input(self, infile, data=None)].  [open(infile, 'w')]
    is taken to succeed, and [data] to be an instance that can be weakly
    referenced.  The file is closed with what was written, also when the
    body raises. *)
Definition write_input (self : DakotaInput) (infile : string)
    (data : option N) : M unit :=
  λ w,
    let '(r, out, w') := write_sections self data section_order "" w in
    (r, set_files <[infile := out]> w').

(** [fetch_data(ident)] *)
Definition fetch_data (ident : atom) : M N :=
  λ w, (weak_getitem ident w, w).

(** ** The monad of the module *)

Definition ret {A} (a : A) : M A := λ w, (Ok a, w).

Definition bind {A B} (m : M A) (k : A → M B) : M B :=
  λ w, match m w with
       | (Ok a, w') => k a w'
       | (Raise e, w') => (Raise e, w')
       end.

(** [m1; m2] *)
Definition and_then {A B} (m1 : M A) (m2 : M B) : M B := bind m1 (λ _, m2).

(** ** The engine boundary *)

(** [_ExcInfo]: the slot the C++ level fills when a callback raised. *)
Record _ExcInfo := Build_ExcInfo {
  exc_type : option string;
  exc_value : atom;
  exc_traceback : option (list string);
}.

(** [_ExcInfo.__init__] *)
Definition _ExcInfo_init : _ExcInfo := Build_ExcInfo None None_ None.

(** What is fixed for the life of the process. *)
Record process := Process {
  getpid : N;
  sys_platform : string;
  (** [comm = MPI.COMM_WORLD], from mpi4py *)
  comm : communicator;
  (** [from boost.mpi import world]; [None] when the import fails *)
  boost_mpi_world : option communicator;
}.

(** [sys.platform in ('cygwin', 'win32')] decides [_HAVE_MPI]. *)
Definition _HAVE_MPI (P : process) : bool :=
  if String.eqb (sys_platform P) "cygwin" || String.eqb (sys_platform P) "win32"
  then false else true.

Section Dakota.

(** The process the module is loaded in. *)
Variable P : process.

(** The engine library: for a call and the slot passed down, the status it
    returns and the slot as the C++ level leaves it.  The library reports a
    failure by its status, it does not raise. *)
Variable pyDAKOTA : engine_call → _ExcInfo → world → Z * _ExcInfo.

(** The [dakota_callback] methods of the user classes, by class name. *)
Variable subclass_dakota_callback : string → N → gmap string val → M val.

Definition call_engine (c : engine_call) (exc : _ExcInfo) : M (Z * _ExcInfo) :=
  λ w, (Ok (pyDAKOTA c exc w), record_call c w).

(** [run_dakota(infile, mpi_comm=None, use_mpi=True, stdout=None,
    stderr=None)] *)
Definition run_dakota (infile : string) (mpi_comm : option communicator)
    (use_mpi : bool) (stdout stderr : option string) : M unit :=
  let exc := _ExcInfo_init in
  bind
    match mpi_comm with
    | None =>
        if _HAVE_MPI P && use_mpi then
          match boost_mpi_world P with
          | Some world =>
              call_engine (pyDAKOTA_run_dakota_mpi infile world stdout stderr) exc
          | None =>
              call_engine (pyDAKOTA_run_dakota infile stdout stderr) exc
          end
        else call_engine (pyDAKOTA_run_dakota infile stdout stderr) exc
    | Some c =>
        call_engine (pyDAKOTA_run_dakota_mpi infile c stdout stderr) exc
    end
    (λ '(err, exc) w,
       if negb (err =? 0) then
         match exc_type exc with
         | None => (raise_ "RuntimeError" "DAKOTA analysis failed", w)
         | Some type => (Raise (Exn type (exc_value exc) (exc_traceback exc)), w)
         end
       else (Ok tt, w)).

(** ** DakotaBase *)

(** [DakotaBase.__init__]: a new object whose [input] is [DakotaInput()]. *)
Definition DakotaBase_init (cls : pyclass) (refs : nat) : object :=
  Object cls (Some (DakotaInput_init ∅)) refs.

(** A method never runs on an object that is gone; the model answers such
    a call with this exception. *)
Definition dead_object {A} : outcome A :=
  raise_ "ReferenceError" "object no longer exists".

(** [DakotaBase.run_dakota(self, infile, mpi_comm, use_mpi, stdout,
    stderr)] *)
Definition DakotaBase_run_dakota (self : N) (infile : string)
    (mpi_comm : option communicator) (use_mpi : bool)
    (stdout stderr : option string) : M unit :=
  λ w,
    if Get_rank (comm P) =? 0 then
      match heap w !! self with
      | Some o =>
          match obj_input o with
          | Some input =>
              and_then (write_input input infile (Some self))
                (run_dakota infile mpi_comm use_mpi stdout stderr) w
          | None =>
              (raise_ "AttributeError" "object has no attribute 'input'", w)
          end
      | None => (dead_object, w)
      end
    else (Ok tt, w).

(** [DakotaBase.dakota_callback(self, kwargs)] *)
Definition DakotaBase_dakota_callback (self : N) (kwargs : gmap string val)
  : M val :=
  λ w, (raise_ "NotImplementedError" "dakota_callback", w).

(** [driver.dakota_callback] applied to the request: the method of the object's class. *)
Definition call_dakota_callback (driver : N) (kwargs : gmap string val)
  : M val :=
  λ w,
    match heap w !! driver with
    | Some o =>
        match obj_class o with
        | DakotaBase => DakotaBase_dakota_callback driver kwargs w
        | Subclass name => subclass_dakota_callback name driver kwargs w
        end
    | None => (dead_object, w)
    end.

(** ** The callback DAKOTA invokes *)

Definition no_analysis_components_msg : string :=
  "dakota_callback (" +:+ pretty (getpid P) +:+ "): No analysis_components".

Definition ident_not_found_msg (ident : atom) : string :=
  "dakota_callback (" +:+ pretty (getpid P) +:+ "): ident " +:+ str ident
  +:+ " not found in user data".

(** The module-level [dakota_callback], on the request [kwargs]. *)
Definition dakota_callback (kwargs : gmap string val) : M val :=
  λ w,
    match kwargs !! "analysis_components" with
    | None => (Raise (Exn "KeyError" (Str "analysis_components") None), w)
    | Some acs =>
        if negb (truthy acs) then
          let msg := no_analysis_components_msg in
          (raise_ "RuntimeError" msg, logging_error msg w)
        else
          match getitem0 acs with
          | Raise e => (Raise e, w)
          | Ok ident =>
              match fetch_data ident w with
              | (Ok driver, w) => call_dakota_callback driver kwargs w
              | (Raise e, w) =>
                  if String.eqb (exn_type e) "KeyError" then
                    let msg := ident_not_found_msg ident in
                    (raise_ "RuntimeError" msg, logging_error msg w)
                  else (Raise e, w)
              end
          end
    end.

End Dakota.

(** ** Reading an input file back

    The engine reads the file line by line: a line that does not start with
    a tab opens a section, a line that does belongs to the section opened
    last.  These readers state what a written file contains. *)

Definition is_newline (c : ascii) : bool := Ascii.eqb c (ascii_of_nat 10).
Definition is_tab (c : ascii) : bool := Ascii.eqb c (ascii_of_nat 9).

Fixpoint no_newline (s : string) : bool :=
  match s with
  | EmptyString => true
  | String c s' => negb (is_newline c) && no_newline s'
  end.

(** The lines of a text, each without the newline that ends it. *)
Fixpoint lines (s : string) : list string :=
  match s with
  | EmptyString => []
  | String c s' =>
      if is_newline c then EmptyString :: lines s'
      else match lines s' with
           | [] => [String c EmptyString]
           | l :: ls => String c l :: ls
           end
  end.

(** The text of a line after its leading tab, if it has one. *)
Definition indented (l : string) : option string :=
  match l with
  | String c l' => if is_tab c then Some l' else None
  | EmptyString => None
  end.

(** The lines that come before the first header, and the sections. *)
Fixpoint parse_sections (ls : list string)
  : list string * list (string * list string) :=
  match ls with
  | [] => ([], [])
  | l :: rest =>
      let '(body, sections) := parse_sections rest in
      match indented l with
      | Some content => (content :: body, sections)
      | None => ([], (l, body) :: sections)
      end
  end.

Definition file_sections (text : string) : list (string * list string) :=
  (parse_sections (lines text)).2.

(** The body of the first section with the given name. *)
Fixpoint section_body (name : string) (sections : list (string * list string))
  : option (list string) :=
  match sections with
  | [] => None
  | (n, body) :: rest =>
      if String.eqb n name then Some body else section_body name rest
  end.

(** The lines of a file with the given sections: each header, then its
    content lines behind one tab each. *)
Definition layout (sections : list (string * list string)) : list string :=
  flat_map (λ s, s.1 :: map (String.append tab) s.2) sections.

(** The text [write_input] writes for one section. *)
Definition section_text (name : string) (body : list string) : string :=
  write_lines body (name +:+ nl).

(** The text of a file made of the given sections. *)
Definition file_text (sections : list (string * list string)) : string :=
  foldr (λ s rest, section_text s.1 s.2 +:+ rest) "" sections.

(** The sections of the file that a default [DakotaInput] writes. *)
Definition default_file (data : option N) : list (string * list string) :=
  [("environment", default_environment);
   ("method", default_method);
   ("model", default_model);
   ("variables", default_variables);
   ("interface",
    default_interface
    ++ match data with
       | Some d => [analysis_components_content (pretty d)]
       | None => []
       end);
   ("responses", default_responses)].

Fixpoint strip_prefix (p s : string) : option string :=
  match p, s with
  | EmptyString, _ => Some s
  | String a p', String b s' => if Ascii.eqb a b then strip_prefix p' s' else None
  | String _ _, EmptyString => None
  end.

(** [s] without its last character, when that is the quote. *)
Fixpoint strip_closing_quote (s : string) : option string :=
  match s with
  | EmptyString => None
  | String c EmptyString => if Ascii.eqb c "'"%char then Some EmptyString else None
  | String c s' => String c <$> strip_closing_quote s'
  end.

(** The identity key in a content line [  analysis_components = 'KEY']. *)
Definition analysis_components_key (content : string) : option string :=
  strip_prefix "  analysis_components = '" content ≫= strip_closing_quote.

(** The communicator resolution of [run_dakota]: which engine entry point
    it ends up calling. *)
Definition selected_call (P : process) (infile : string)
    (mpi_comm : option communicator) (use_mpi : bool)
    (stdout stderr : option string) : engine_call :=
  match mpi_comm with
  | None =>
      if _HAVE_MPI P && use_mpi then
        match boost_mpi_world P with
        | Some world => pyDAKOTA_run_dakota_mpi infile world stdout stderr
        | None => pyDAKOTA_run_dakota infile stdout stderr
        end
      else pyDAKOTA_run_dakota infile stdout stderr
  | Some c => pyDAKOTA_run_dakota_mpi infile c stdout stderr
  end.

(** ** Concrete worlds, for the examples *)

Definition empty_world : world := World ∅ ∅ ∅ [] [].

Definition example_process : process :=
  Process 4242 "linux2" (Communicator 0 4) (Some (Communicator 0 4)).

(** A world with one driver of a user class at address 140 and one plain
    [DakotaBase] at address 152, each owned once. *)
Definition example_world : world :=
  World (<[140%N := DakotaBase_init (Subclass "Rosenbrock") 1]>
         (<[152%N := DakotaBase_init DakotaBase 1]> ∅))
        ∅ ∅ [] [].

(** An engine that reports success and leaves the slot alone. *)
Definition quiet_engine (c : engine_call) (exc : _ExcInfo) (w : world)
  : Z * _ExcInfo := (0, exc).

(** An engine whose callback raised [ValueError("bad variable bounds")]. *)
Definition failing_engine (c : engine_call) (exc : _ExcInfo) (w : world)
  : Z * _ExcInfo :=
  (1, Build_ExcInfo (Some "ValueError") (Str "bad variable bounds")
        (Some ["dakota_callback"])).

(** An engine that fails without filling the slot. *)
Definition aborting_engine (c : engine_call) (exc : _ExcInfo) (w : world)
  : Z * _ExcInfo := (1, exc).

(** User callbacks that answer every request with one function value. *)
Definition example_callback (name : string) (self : N)
    (kwargs : gmap string val) : M val :=
  λ w, (Ok (List [Int 7]), w).

(** ** The constructor and the writer, summed up *)

(** The loop of [DakotaInput.__init__]: [setattr(self, key, kwargs[key])]
    for the items of [kwargs], in the order the dictionary yields them. *)
Definition setattr_all (items : list (string * list string))
    (self : DakotaInput) : DakotaInput :=
  fold_left (λ self kv, <[kv.1 := kv.2]> self) items self.

(** The scan of [write_input] finds an interface line that mentions
    analysis_components, and there is a data object. *)
Definition interface_conflict (self : DakotaInput) (data : option N) : bool :=
  match data with
  | Some _ =>
      existsb (contains "analysis_components") (default [] (self !! "interface"))
  | None => false
  end.

(** [_USER_DATA[str(id(data))] = data], when there is a data object. *)
Definition registered (data : option N) (w : world) : world :=
  match data with
  | Some d => set_USER_DATA <[Str (pretty d) := d]> w
  | None => w
  end.

(** The six sections as [write_input] writes them: the lines of each
    attribute, and the identity line at the end of the interface. *)
Definition written_sections (self : DakotaInput) (data : option N)
  : list (string * list string) :=
  [("environment", default [] (self !! "environment"));
   ("method", default [] (self !! "method"));
   ("model", default [] (self !! "model"));
   ("variables", default [] (self !! "variables"));
   ("interface",
    default [] (self !! "interface")
    ++ match data with
       | Some d => [analysis_components_content (pretty d)]
       | None => []
       end);
   ("responses", default [] (self !! "responses"))].

(** Every key of [_USER_DATA] spells the address of the object it points
    to, and that object is alive. *)
Definition registry_ok (w : world) : Prop :=
  ∀ key d, _USER_DATA w !! key = Some d →
           key = Str (pretty d) ∧ is_Some (heap w !! d).

(** * Properties *)

(** ** Strings and lines *)

Lemma append_cons (c : ascii) (a b : string) :
  String c a +:+ b = String c (a +:+ b).
Proof. reflexivity. Qed.

Lemma append_nil_l (b : string) : "" +:+ b = b.
Proof. reflexivity. Qed.

Lemma append_assoc (a b c : string) : (a +:+ b) +:+ c = a +:+ b +:+ c.
Proof.
  induction a as [|x a IH]; [done |]. by rewrite !append_cons, IH.
Qed.

Lemma append_nil_r (a : string) : a +:+ "" = a.
Proof.
  induction a as [|x a IH]; [done |]. by rewrite append_cons, IH.
Qed.

Lemma write_lines_app (body : list string) (out : string) :
  write_lines body out = out +:+ write_lines body "".
Proof.
  unfold write_lines. revert out.
  induction body as [|l body IH]; intros out; simpl.
  - by rewrite append_nil_r.
  - rewrite IH, (IH ("" +:+ _)). by rewrite append_nil_l, !append_assoc.
Qed.

Lemma write_lines_cons (l : string) (body : list string) :
  write_lines (l :: body) "" = tab +:+ l +:+ nl +:+ write_lines body "".
Proof.
  change (write_lines (l :: body) "")
    with (write_lines body ("" +:+ tab +:+ l +:+ nl)).
  by rewrite write_lines_app, append_nil_l, !append_assoc.
Qed.

Lemma write_section_text (name : string) (body : list string) (out : string) :
  write_lines body (out +:+ name +:+ nl) = out +:+ section_text name body.
Proof.
  unfold section_text.
  by rewrite write_lines_app, (write_lines_app body (name +:+ nl)), !append_assoc.
Qed.

Lemma lines_line (l rest : string) :
  no_newline l = true → lines (l +:+ nl +:+ rest) = l :: lines rest.
Proof.
  induction l as [|c l IH]; simpl; intros Hl; [done |].
  apply andb_true_iff in Hl as [Hc Hl].
  apply negb_true_iff in Hc.
  by rewrite Hc, (IH Hl).
Qed.

Lemma no_newline_app (a b : string) :
  no_newline (a +:+ b) = no_newline a && no_newline b.
Proof.
  induction a as [|c a IH]; [done |].
  rewrite ?append_cons. simpl. by rewrite IH, andb_assoc.
Qed.

Lemma lines_write_lines (body : list string) (rest : string) :
  forallb no_newline body = true →
  lines (write_lines body "" +:+ rest)
  = map (String.append tab) body ++ lines rest.
Proof.
  induction body as [|l body IH]; intros Hb.
  - done.
  - simpl in Hb. apply andb_true_iff in Hb as [Hl Hb].
    rewrite write_lines_cons, !append_assoc, <- (append_assoc tab l).
    rewrite lines_line, (IH Hb); [done |].
    by rewrite no_newline_app, Hl.
Qed.

Lemma lines_section_text (name : string) (body : list string) (rest : string) :
  no_newline name = true → forallb no_newline body = true →
  lines (section_text name body +:+ rest)
  = name :: map (String.append tab) body ++ lines rest.
Proof.
  intros Hn Hb. unfold section_text.
  rewrite write_lines_app, !append_assoc.
  by rewrite (lines_line _ _ Hn), (lines_write_lines _ _ Hb).
Qed.

Lemma lines_file_text (sections : list (string * list string)) :
  forallb (λ s, no_newline s.1 && forallb no_newline s.2) sections = true →
  lines (file_text sections) = layout sections.
Proof.
  induction sections as [|[name body] sections IH]; intros H; [done |].
  simpl in H. apply andb_true_iff in H as [H Hs].
  apply andb_true_iff in H as [Hn Hb].
  change (file_text ((name, body) :: sections))
    with (section_text name body +:+ file_text sections).
  rewrite (lines_section_text _ _ _ Hn Hb), (IH Hs). done.
Qed.

Lemma section_text_snoc (name : string) (body : list string) (l : string) :
  section_text name body +:+ tab +:+ l +:+ nl = section_text name (body ++ [l]).
Proof.
  unfold section_text, write_lines. by rewrite fold_left_app.
Qed.

(** [contains] is the substring test. *)
Lemma prefix_spec (pat s : string) :
  String.prefix pat s = true ↔ ∃ b, s = pat +:+ b.
Proof.
  revert s. induction pat as [|c pat IH]; intros s.
  - split; [intros _; by exists s | by destruct s].
  - destruct s as [|c' s]; simpl.
    + split; [done | by intros [b Hb]].
    + destruct (ascii_dec c c') as [<- | Hne].
      * split.
        -- intros [b Hb]%IH. exists b. by rewrite append_cons, <- Hb.
        -- intros [b Hb]. apply IH. exists b.
           rewrite append_cons in Hb. by injection Hb.
      * split; [done |]. intros [b Hb].
        rewrite append_cons in Hb. by injection Hb.
Qed.

Lemma contains_spec (pat s : string) :
  contains pat s = true ↔ ∃ a b, s = a +:+ pat +:+ b.
Proof.
  induction s as [|c s IH].
  - change (contains pat "") with (String.prefix pat "" || false).
    rewrite orb_false_r, prefix_spec. split.
    + intros [b Hb]. by exists "", b.
    + intros (a & b & Hab). destruct a; [by exists b | done].
  - change (contains pat (String c s))
      with (String.prefix pat (String c s) || contains pat s).
    rewrite orb_true_iff, prefix_spec, IH. split.
    + intros [[b Hb] | (a & b & Hab)].
      * by exists "", b.
      * exists (String c a), b. by rewrite append_cons, <- Hab.
    + intros (a & b & Hab). destruct a as [|c' a].
      * left. by exists b.
      * right. exists a, b. rewrite append_cons in Hab. by injection Hab.
Qed.

(** ** What [write_input] does, section by section *)

Lemma write_input_run (self : DakotaInput) (infile : string) (data : option N)
    (w : world) (e m mo v i r : list string) :
  self !! "environment" = Some e → self !! "method" = Some m →
  self !! "model" = Some mo → self !! "variables" = Some v →
  self !! "interface" = Some i → self !! "responses" = Some r →
  write_input self infile data w
  = match data with
    | None =>
        (Ok tt,
         set_files <[infile := file_text
           [("environment", e); ("method", m); ("model", mo);
            ("variables", v); ("interface", i); ("responses", r)]]> w)
    | Some d =>
        if existsb (contains "analysis_components") i then
          (raise_ "RuntimeError"
             "Cannot specify both analysis_components and data",
           set_files <[infile := file_text
             [("environment", e); ("method", m); ("model", mo);
              ("variables", v); ("interface", i)]]> w)
        else
          (Ok tt,
           set_files <[infile := file_text
             [("environment", e); ("method", m); ("model", mo);
              ("variables", v);
              ("interface", i ++ [analysis_components_content (pretty d)]);
              ("responses", r)]]>
             (set_USER_DATA <[Str (pretty d) := d]> w))
    end.
Proof.
  intros He Hm Hmo Hv Hi Hr.
  unfold write_input, section_order. cbn [write_sections].
  rewrite He, Hm, Hmo, Hv, Hi, Hr.
  rewrite !write_section_text.
  destruct data as [d|]; cbn [String.eqb Ascii.eqb Bool.eqb].
  - destruct (existsb (contains "analysis_components") i).
    + unfold file_text. cbn [foldr fst snd].
      by rewrite !append_assoc, !append_nil_r, !append_nil_l.
    + rewrite ?write_section_text.
      unfold file_text. cbn [foldr fst snd].
      rewrite <- section_text_snoc. unfold analysis_components_line.
      by rewrite !append_assoc, !append_nil_r, !append_nil_l.
  - rewrite ?write_section_text.
    unfold file_text. cbn [foldr fst snd].
    by rewrite !append_assoc, !append_nil_r, !append_nil_l.
Qed.

(** ** The sections of a constructed [DakotaInput] *)

Lemma DakotaInput_init_lookup (kwargs : DakotaInput) (name : string)
    (dflt : list string) :
  default_sections !! name = Some dflt →
  DakotaInput_init kwargs !! name = Some (default dflt (kwargs !! name)).
Proof.
  intros Hd. unfold DakotaInput_init.
  destruct (kwargs !! name) as [l|] eqn:Hk; simpl.
  - by apply lookup_union_Some_l.
  - by rewrite lookup_union_r.
Qed.

(** Assigning to attributes keeps an object within what the constructor can
    build: a dictionary with the six sections is [DakotaInput_init] of
    itself. *)
Lemma DakotaInput_init_fixed (self : DakotaInput) :
  (∀ name, name ∈ section_order → is_Some (self !! name)) →
  DakotaInput_init self = self.
Proof.
  intros Hall. unfold DakotaInput_init. apply map_eq. intros k.
  destruct (self !! k) as [l|] eqn:Hk.
  - by apply lookup_union_Some_l.
  - rewrite lookup_union_r by done.
    destruct (default_sections !! k) as [l|] eqn:Hd; [|done].
    assert (k ∈ section_order) as Hin.
    { unfold default_sections in Hd. unfold section_order.
      repeat (apply lookup_insert_Some in Hd as [[<- _]|[_ Hd]];
              [set_solver|]).
      by rewrite lookup_empty in Hd. }
    apply Hall in Hin as [? ?]. congruence.
Qed.

(** [write_input] on a constructed [DakotaInput], with its sections named. *)
Lemma write_input_init (kwargs : DakotaInput) (infile : string)
    (data : option N) (w : world) :
  ∃ e m mo v i r,
    DakotaInput_init kwargs !! "interface" = Some i ∧
    DakotaInput_init kwargs !! "variables" = Some v ∧
    i = default default_interface (kwargs !! "interface") ∧
    v = default default_variables (kwargs !! "variables") ∧
    write_input (DakotaInput_init kwargs) infile data w
    = match data with
      | None =>
          (Ok tt,
           set_files <[infile := file_text
             [("environment", e); ("method", m); ("model", mo);
              ("variables", v); ("interface", i); ("responses", r)]]> w)
      | Some d =>
          if existsb (contains "analysis_components") i then
            (raise_ "RuntimeError"
               "Cannot specify both analysis_components and data",
             set_files <[infile := file_text
               [("environment", e); ("method", m); ("model", mo);
                ("variables", v); ("interface", i)]]> w)
          else
            (Ok tt,
             set_files <[infile := file_text
               [("environment", e); ("method", m); ("model", mo);
                ("variables", v);
                ("interface", i ++ [analysis_components_content (pretty d)]);
                ("responses", r)]]>
               (set_USER_DATA <[Str (pretty d) := d]> w))
      end.
Proof.
  eexists _, _, _, _, _, _.
  split; [by apply (DakotaInput_init_lookup _ _ default_interface) |].
  split; [by apply (DakotaInput_init_lookup _ _ default_variables) |].
  split; [done |]. split; [done |].
  apply write_input_run.
  - by apply (DakotaInput_init_lookup _ _ default_environment).
  - by apply (DakotaInput_init_lookup _ _ default_method).
  - by apply (DakotaInput_init_lookup _ _ default_model).
  - by apply (DakotaInput_init_lookup _ _ default_variables).
  - by apply (DakotaInput_init_lookup _ _ default_interface).
  - by apply (DakotaInput_init_lookup _ _ default_responses).
Qed.

(** ** The identity key *)

Lemma strip_closing_quote_app (s : string) :
  strip_closing_quote (s +:+ "'") = Some s.
Proof.
  induction s as [|c s IH]; [done |].
  rewrite append_cons.
  destruct (s +:+ "'") as [|a t] eqn:E; [done |].
  change (String c <$> strip_closing_quote (String a t) = Some (String c s)).
  by rewrite IH.
Qed.

(** Reading the key back from the line that [write_input] writes. *)
Lemma analysis_components_key_content (ident : string) :
  analysis_components_key (analysis_components_content ident) = Some ident.
Proof.
  unfold analysis_components_key, analysis_components_content.
  rewrite !append_cons, append_nil_l. simpl.
  apply strip_closing_quote_app.
Qed.

Lemma weak_getitem_insert (d : N) (ident : atom) (w : world) :
  is_Some (heap w !! d) →
  weak_getitem ident (set_USER_DATA <[ident := d]> w) = Ok d.
Proof.
  intros [o Ho]. unfold weak_getitem, set_USER_DATA. simpl.
  by rewrite lookup_insert_eq, Ho.
Qed.

(** ** Writing the input file *)

(** C1. For every driver object [d], after a successful
    [write_input(infile, data=d)] the interface section of the file ends in
    the analysis_components line, no other line of that section mentions
    analysis_components, and the identity key read from that line resolves
    through [fetch_data] to exactly [d]. *)
Theorem write_input_then_fetch_data (kwargs : DakotaInput) (infile : string)
    (d : N) (w w' : world) :
  is_Some (heap w !! d) →
  write_input (DakotaInput_init kwargs) infile (Some d) w = (Ok tt, w') →
  ∃ ident e m mo v i r,
    DakotaInput_init kwargs !! "interface" = Some i ∧
    (∀ l, l ∈ i → contains "analysis_components" l = false) ∧
    files w' !! infile = Some (file_text
      [("environment", e); ("method", m); ("model", mo); ("variables", v);
       ("interface", i ++ [analysis_components_content ident]);
       ("responses", r)]) ∧
    analysis_components_key (analysis_components_content ident) = Some ident ∧
    fetch_data (Str ident) w' = (Ok d, w').
Proof.
  intros Hlive Hw.
  destruct (write_input_init kwargs infile (Some d) w)
    as (e & m & mo & v & i & r & Hi & _ & _ & _ & Hrun).
  rewrite Hrun in Hw.
  destruct (existsb (contains "analysis_components") i) eqn:Hac;
    [discriminate |].
  injection Hw as <-.
  exists (pretty d), e, m, mo, v, i, r.
  split; [done |]. split.
  { intros l Hl. destruct (contains "analysis_components" l) eqn:Hc; [|done].
    assert (existsb (contains "analysis_components") i = true) as Hex
      by (apply existsb_exists; exists l; by rewrite <- list_elem_of_In).
    congruence. }
  split; [simpl; by rewrite lookup_insert_eq |].
  split; [apply analysis_components_key_content |].
  unfold fetch_data. f_equal.
  unfold weak_getitem. simpl. rewrite lookup_insert_eq.
  by destruct Hlive as [o ->].
Qed.

Lemma write_input_then_fetch_data_witness :
  ∃ ident e m mo v i r,
    DakotaInput_init ∅ !! "interface" = Some i ∧
    (∀ l, l ∈ i → contains "analysis_components" l = false) ∧
    files (write_input (DakotaInput_init ∅) "dakota.in" (Some 140%N)
             example_world).2 !! "dakota.in" = Some (file_text
      [("environment", e); ("method", m); ("model", mo); ("variables", v);
       ("interface", i ++ [analysis_components_content ident]);
       ("responses", r)]) ∧
    analysis_components_key (analysis_components_content ident) = Some ident ∧
    fetch_data (Str ident)
      (write_input (DakotaInput_init ∅) "dakota.in" (Some 140%N)
         example_world).2
    = (Ok 140%N,
       (write_input (DakotaInput_init ∅) "dakota.in" (Some 140%N)
          example_world).2).
Proof.
  apply (write_input_then_fetch_data ∅ "dakota.in" 140%N example_world).
  - by eexists.
  - reflexivity.
Defined.

(** C2. When the interface section holds a line that mentions
    analysis_components and [data] is not [None], [write_input] raises the
    RuntimeError that refuses the combination, whatever the other sections
    hold. *)
Theorem write_input_conflict (kwargs : DakotaInput) (iface : list string)
    (line infile : string) (d : N) (w : world) :
  kwargs !! "interface" = Some iface →
  line ∈ iface →
  contains "analysis_components" line = true →
  (write_input (DakotaInput_init kwargs) infile (Some d) w).1
  = raise_ "RuntimeError" "Cannot specify both analysis_components and data".
Proof.
  intros Hi Hl Hc.
  destruct (write_input_init kwargs infile (Some d) w)
    as (e & m & mo & v & i & r & _ & _ & -> & _ & ->).
  rewrite Hi. simpl.
  assert (existsb (contains "analysis_components") iface = true) as ->; [|done].
  apply existsb_exists. exists line. by rewrite <- list_elem_of_In.
Qed.

Lemma write_input_conflict_witness :
  (write_input
     (DakotaInput_init
        (<["interface" := ["python"; "  analysis_components = 'mine'"]]>
         (<["method" := ["sampling"]]> ∅)))
     "dakota.in" (Some 140%N) example_world).1
  = raise_ "RuntimeError" "Cannot specify both analysis_components and data".
Proof.
  apply (write_input_conflict _ ["python"; "  analysis_components = 'mine'"]
           "  analysis_components = 'mine'").
  - reflexivity.
  - set_solver.
  - reflexivity.
Defined.

(** C10. If [write_input] raises, the exception is the RuntimeError of the
    conflict, an interface line mentions analysis_components, and
    [_USER_DATA] is as it was before the call: the data object was never
    registered. *)
Theorem write_input_conflict_registry (kwargs : DakotaInput)
    (infile : string) (data : option N) (w w' : world) (e : exn) :
  write_input (DakotaInput_init kwargs) infile data w = (Raise e, w') →
  Raise (A := unit) e
  = raise_ "RuntimeError" "Cannot specify both analysis_components and data" ∧
  (∃ i l, DakotaInput_init kwargs !! "interface" = Some i ∧ l ∈ i ∧
          contains "analysis_components" l = true) ∧
  is_Some data ∧
  _USER_DATA w' = _USER_DATA w ∧
  heap w' = heap w.
Proof.
  intros Hw.
  destruct (write_input_init kwargs infile data w)
    as (en & m & mo & v & i & r & Hi & _ & _ & _ & Hrun).
  rewrite Hrun in Hw. destruct data as [d|]; [|discriminate].
  destruct (existsb (contains "analysis_components") i) eqn:Hac;
    [|discriminate].
  injection Hw as <- <-.
  split; [done |]. split; [|by eauto].
  apply existsb_exists in Hac as (l & Hl & Hc).
  exists i, l. by rewrite list_elem_of_In.
Qed.

Lemma write_input_conflict_registry_witness :
  let self :=
    DakotaInput_init {["interface" := ["analysis_components = 'mine'"]]} in
  let e := Exn "RuntimeError"
             (Str "Cannot specify both analysis_components and data") None in
  let w' := (write_input self "dakota.in" (Some 140%N) example_world).2 in
  write_input self "dakota.in" (Some 140%N) example_world = (Raise e, w') ∧
  _USER_DATA w' = _USER_DATA example_world.
Proof.
  intros self e w'. split; [reflexivity |].
  apply (write_input_conflict_registry
           {["interface" := ["analysis_components = 'mine'"]]}
           "dakota.in" (Some 140%N) example_world w' e).
  reflexivity.
Defined.

(** ** The weak dictionary *)

Lemma weak_getitem_live (key : atom) (d : N) (w : world) :
  weak_getitem key w = Ok d → is_Some (heap w !! d).
Proof.
  unfold weak_getitem.
  destruct (_USER_DATA w !! key) as [d'|]; [|done].
  destruct (heap w !! d') as [o|] eqn:Ho; [|done].
  intros [= <-]. by eexists.
Qed.

Lemma weak_getitem_dead (key : atom) (w : world) :
  (∀ d, weak_getitem key w ≠ Ok d) →
  weak_getitem key w = Raise (Exn "KeyError" key None).
Proof.
  unfold weak_getitem. intros Hno.
  destruct (_USER_DATA w !! key) as [d|]; [|done].
  destruct (heap w !! d); [|done]. by destruct (Hno d).
Qed.

Lemma reclaim_heap (d : N) (w : world) : heap (reclaim d w) !! d = None.
Proof. unfold reclaim. simpl. apply lookup_delete_eq. Qed.

(** The callbacks of the weak references leave no entry for the object. *)
Lemma reclaim_USER_DATA (d : N) (w : world) (key : atom) :
  _USER_DATA (reclaim d w) !! key ≠ Some d.
Proof.
  unfold reclaim. simpl. intros H.
  apply map_lookup_filter_Some in H as [_ H]. by apply H.
Qed.

Lemma release_n_gone (n : nat) (d : N) (w : world) (o : object) :
  heap w !! d = Some o → obj_refs o = n → (0 < n)%nat →
  heap (release_n n d w) !! d = None.
Proof.
  revert w o. induction n as [|n IH]; intros w o Ho Hn Hpos; [lia |].
  simpl. unfold release. rewrite Ho, Hn.
  destruct n as [|n].
  - simpl. apply reclaim_heap.
  - apply (IH _ (Object (obj_class o) (obj_input o) (S n))); [|done|lia].
    simpl. apply lookup_insert_eq.
Qed.

Lemma release_n_USER_DATA (n : nat) (d : N) (w : world) (o : object) :
  heap w !! d = Some o → obj_refs o = n → (0 < n)%nat →
  _USER_DATA (release_n n d w) = filter (λ kv, kv.2 ≠ d) (_USER_DATA w).
Proof.
  revert w o. induction n as [|n IH]; intros w o Ho Hn Hpos; [lia |].
  simpl. unfold release. rewrite Ho, Hn.
  destruct n as [|n].
  - done.
  - rewrite (IH _ (Object (obj_class o) (obj_input o) (S n))); [done| |done|lia].
    simpl. apply lookup_insert_eq.
Qed.

(** Releasing references changes nothing but the heap cell of the object
    and, at the end, the weak entries that point to it. *)
Lemma release_other (d d' : N) (w : world) :
  d ≠ d' → heap (release d w) !! d' = heap w !! d'.
Proof.
  intros Hne. unfold release.
  destruct (heap w !! d) as [o|]; [|done].
  destruct (obj_refs o) as [|[|n]]; simpl.
  - by rewrite lookup_delete_ne.
  - by rewrite lookup_delete_ne.
  - by rewrite lookup_insert_ne.
Qed.

(** ** What the engine calls back *)

Section Callback.

Variable P : process.
Variable subclass_dakota_callback : string → N → gmap string val → M val.

Lemma dakota_callback_unknown (kwargs : gmap string val) (acs : val)
    (ident : atom) (w : world) :
  kwargs !! "analysis_components" = Some acs →
  truthy acs = true → getitem0 acs = Ok ident →
  (∀ d, fetch_data ident w ≠ (Ok d, w)) →
  dakota_callback P subclass_dakota_callback kwargs w
  = (raise_ "RuntimeError" (ident_not_found_msg P ident),
     logging_error (ident_not_found_msg P ident) w).
Proof.
  intros Hk Ht Hg Hno. unfold dakota_callback. rewrite Hk, Ht, Hg. simpl.
  rewrite weak_getitem_dead; [done |].
  intros d Hd. apply (Hno d). unfold fetch_data. by rewrite Hd.
Qed.

Lemma dakota_callback_known (kwargs : gmap string val) (acs : val)
    (ident : atom) (d : N) (w : world) :
  kwargs !! "analysis_components" = Some acs →
  truthy acs = true → getitem0 acs = Ok ident →
  fetch_data ident w = (Ok d, w) →
  dakota_callback P subclass_dakota_callback kwargs w
  = call_dakota_callback subclass_dakota_callback d kwargs w.
Proof.
  intros Hk Ht Hg Hd. unfold dakota_callback. by rewrite Hk, Ht, Hg, Hd.
Qed.

End Callback.

(** C3, as the code has it.  A request whose analysis_components is present
    and empty makes [dakota_callback] log the message and raise it as a
    RuntimeError; a request without the field raises the KeyError of the
    lookup, and nothing is logged. *)
Theorem dakota_callback_no_analysis_components (P : process)
    (cb : string → N → gmap string val → M val)
    (kwargs : gmap string val) (w : world) :
  (kwargs !! "analysis_components" = Some (List []) →
   dakota_callback P cb kwargs w
   = (raise_ "RuntimeError" (no_analysis_components_msg P),
      logging_error (no_analysis_components_msg P) w)) ∧
  (kwargs !! "analysis_components" = None →
   dakota_callback P cb kwargs w
   = (Raise (Exn "KeyError" (Str "analysis_components") None), w)).
Proof.
  unfold dakota_callback. split; intros ->; done.
Qed.

Lemma dakota_callback_no_analysis_components_witness :
  dakota_callback example_process example_callback
    {["analysis_components" := List []; "functions" := Atom (Int 1)]}
    example_world
  = (raise_ "RuntimeError" "dakota_callback (4242): No analysis_components",
     logging_error "dakota_callback (4242): No analysis_components"
       example_world) ∧
  dakota_callback example_process example_callback
    {["functions" := Atom (Int 1)]} example_world
  = (Raise (Exn "KeyError" (Str "analysis_components") None), example_world).
Proof.
  split.
  - apply (dakota_callback_no_analysis_components example_process
             example_callback
             {["analysis_components" := List []; "functions" := Atom (Int 1)]}
             example_world).
    reflexivity.
  - apply (dakota_callback_no_analysis_components example_process
             example_callback {["functions" := Atom (Int 1)]} example_world).
    reflexivity.
Defined.

(** C3, as stated, fails: on a request without analysis_components the
    exception is a KeyError, not the RuntimeError of the missing identity,
    and no error is logged. *)
Lemma dakota_callback_absent_counterexample :
  let kwargs : gmap string val := {["functions" := Atom (Int 1)]} in
  let r := dakota_callback example_process example_callback kwargs
             example_world in
  kwargs !! "analysis_components" = None ∧
  r.1 = Raise (Exn "KeyError" (Str "analysis_components") None) ∧
  r.1 ≠ raise_ "RuntimeError" (no_analysis_components_msg example_process) ∧
  logged_errors r.2 = [].
Proof. repeat split; try reflexivity. discriminate. Qed.

(** C4. When the first analysis_components element does not resolve in
    [_USER_DATA], [dakota_callback] logs the message and raises it as a
    RuntimeError; when it resolves to a driver, the whole request goes to
    the [dakota_callback] method of that driver's class and what the method
    gives back is the result, with the world it leaves. *)
Theorem dakota_callback_dispatch (P : process)
    (cb : string → N → gmap string val → M val)
    (kwargs : gmap string val) (ident : atom) (rest : list atom) (w : world) :
  kwargs !! "analysis_components" = Some (List (ident :: rest)) →
  ((∀ d, fetch_data ident w ≠ (Ok d, w)) →
   dakota_callback P cb kwargs w
   = (raise_ "RuntimeError" (ident_not_found_msg P ident),
      logging_error (ident_not_found_msg P ident) w)) ∧
  (∀ d o, fetch_data ident w = (Ok d, w) → heap w !! d = Some o →
   dakota_callback P cb kwargs w
   = match obj_class o with
     | DakotaBase => (raise_ "NotImplementedError" "dakota_callback", w)
     | Subclass name => cb name d kwargs w
     end).
Proof.
  intros Hk. split.
  - intros Hno. by apply (dakota_callback_unknown _ _ _ _ _ _ Hk).
  - intros d o Hd Ho.
    rewrite (dakota_callback_known _ _ _ _ _ d _ Hk) by done.
    unfold call_dakota_callback. by rewrite Ho.
Qed.

Lemma dakota_callback_dispatch_witness :
  let w := (write_input (DakotaInput_init ∅) "dakota.in" (Some 140%N)
              example_world).2 in
  dakota_callback example_process example_callback
    {["analysis_components" := List [Str "152"]; "functions" := Atom (Int 1)]} w
  = (raise_ "RuntimeError"
       "dakota_callback (4242): ident 152 not found in user data",
     logging_error "dakota_callback (4242): ident 152 not found in user data"
       w) ∧
  dakota_callback example_process example_callback
    {["analysis_components" := List [Str "140"]; "functions" := Atom (Int 1)]} w
  = example_callback "Rosenbrock" 140%N
      {["analysis_components" := List [Str "140"]; "functions" := Atom (Int 1)]}
      w.
Proof.
  intros w. split.
  - apply (dakota_callback_dispatch example_process example_callback
             {["analysis_components" := List [Str "152"];
               "functions" := Atom (Int 1)]} (Str "152") [] w);
      [reflexivity |].
    intros d. vm_compute. discriminate.
  - destruct (dakota_callback_dispatch example_process example_callback
                {["analysis_components" := List [Str "140"];
                  "functions" := Atom (Int 1)]} (Str "140") [] w)
      as [_ Hknown]; [reflexivity |].
    apply (Hknown 140%N (DakotaBase_init (Subclass "Rosenbrock") 1));
      reflexivity.
Defined.

(** C8. Once every owning reference to a registered driver [d] has been
    released, [d] is gone from the heap although [_USER_DATA] had an entry
    for it (the entry counted for nothing: the write left the heap as it
    was); [fetch_data] of its key raises KeyError, no key resolves to [d],
    and [dakota_callback] on its key raises the RuntimeError of the unknown
    identity. *)
Theorem fetch_data_after_release (kwargs : DakotaInput) (infile : string)
    (d : N) (o : object) (w w1 : world) :
  heap w !! d = Some o → (0 < obj_refs o)%nat →
  write_input (DakotaInput_init kwargs) infile (Some d) w = (Ok tt, w1) →
  let w2 := release_n (obj_refs o) d w1 in
  heap w1 = heap w ∧
  heap w2 !! d = None ∧
  fetch_data (Str (pretty d)) w2
  = (Raise (Exn "KeyError" (Str (pretty d)) None), w2) ∧
  (∀ key, fetch_data key w2 ≠ (Ok d, w2)) ∧
  (∀ P cb request rest,
     request !! "analysis_components" = Some (List (Str (pretty d) :: rest)) →
     dakota_callback P cb request w2
     = (raise_ "RuntimeError" (ident_not_found_msg P (Str (pretty d))),
        logging_error (ident_not_found_msg P (Str (pretty d))) w2)).
Proof.
  intros Ho Hpos Hw w2.
  destruct (write_input_init kwargs infile (Some d) w)
    as (e & m & mo & v & i & r & _ & _ & _ & _ & Hrun).
  rewrite Hrun in Hw.
  destruct (existsb (contains "analysis_components") i); [discriminate |].
  injection Hw as <-.
  assert (heap w2 !! d = None) as Hgone
    by (by apply (release_n_gone _ _ _ o)).
  assert (∀ key d', fetch_data key w2 = (Ok d', w2) → d' ≠ d) as Hstale.
  { intros key d' [= Hk] ->. apply weak_getitem_live in Hk as [? ?].
    congruence. }
  assert (∀ key, (∀ d', fetch_data key w2 ≠ (Ok d', w2)) →
                 fetch_data key w2 = (Raise (Exn "KeyError" key None), w2))
    as Hdead.
  { intros key Hno. unfold fetch_data. rewrite weak_getitem_dead; [done |].
    intros d' Hd'. apply (Hno d'). unfold fetch_data. by rewrite Hd'. }
  assert (∀ d', fetch_data (Str (pretty d)) w2 ≠ (Ok d', w2)) as Hno.
  { intros d' [= Hk]. unfold weak_getitem in Hk. subst w2.
    rewrite (release_n_USER_DATA _ _ _ o) in Hk by done.
    simpl in Hk. rewrite map_lookup_filter, lookup_insert_eq in Hk.
    simpl in Hk. by rewrite option_guard_False in Hk by (by intros []). }
  split; [done |]. split; [done |]. split; [by apply Hdead |].
  split; [intros key Hk; by apply (Hstale key d) |].
  intros P cb request rest Hreq.
  by apply (dakota_callback_unknown _ _ _ _ _ _ Hreq).
Qed.

Lemma fetch_data_after_release_witness :
  let w1 := (write_input (DakotaInput_init ∅) "dakota.in" (Some 140%N)
               example_world).2 in
  let w2 := release_n 1 140%N w1 in
  heap w2 !! 140%N = None ∧
  fetch_data (Str "140") w2 = (Raise (Exn "KeyError" (Str "140") None), w2).
Proof.
  intros w1 w2.
  destruct (fetch_data_after_release ∅ "dakota.in" 140%N
              (DakotaBase_init (Subclass "Rosenbrock") 1) example_world w1)
    as (_ & Hgone & Hfetch & _).
  - reflexivity.
  - simpl. lia.
  - reflexivity.
  - split; [exact Hgone | exact Hfetch].
Defined.

(** ** Running the engine *)

Lemma run_dakota_selected (P : process)
    (pyDAKOTA : engine_call → _ExcInfo → world → Z * _ExcInfo)
    (infile : string) (mpi_comm : option communicator) (use_mpi : bool)
    (stdout stderr : option string) (w : world) :
  run_dakota P pyDAKOTA infile mpi_comm use_mpi stdout stderr w
  = let c := selected_call P infile mpi_comm use_mpi stdout stderr in
    let w' := record_call c w in
    let '(err, exc) := pyDAKOTA c _ExcInfo_init w in
    if negb (err =? 0) then
      match exc_type exc with
      | None => (raise_ "RuntimeError" "DAKOTA analysis failed", w')
      | Some type => (Raise (Exn type (exc_value exc) (exc_traceback exc)), w')
      end
    else (Ok tt, w').
Proof.
  unfold run_dakota, selected_call, bind, call_engine.
  destruct mpi_comm as [c|];
    [|destruct (_HAVE_MPI P && use_mpi); [destruct (boost_mpi_world P) |]];
    simpl; by destruct (pyDAKOTA _ _ _).
Qed.

(** C5. Let the engine answer the call of [run_dakota] with status [err]
    and slot [exc].  With a non-zero status and an empty slot, [run_dakota]
    raises the generic RuntimeError; with a non-zero status and a filled
    slot it raises the captured exception, type, value and traceback as
    they are in the slot; with status zero it returns without raising. *)
Theorem run_dakota_status (P : process)
    (pyDAKOTA : engine_call → _ExcInfo → world → Z * _ExcInfo)
    (infile : string) (mpi_comm : option communicator) (use_mpi : bool)
    (stdout stderr : option string) (w : world) (err : Z) (exc : _ExcInfo) :
  let c := selected_call P infile mpi_comm use_mpi stdout stderr in
  pyDAKOTA c _ExcInfo_init w = (err, exc) →
  (err ≠ 0 → exc_type exc = None →
   run_dakota P pyDAKOTA infile mpi_comm use_mpi stdout stderr w
   = (raise_ "RuntimeError" "DAKOTA analysis failed", record_call c w)) ∧
  (err ≠ 0 → ∀ type, exc_type exc = Some type →
   run_dakota P pyDAKOTA infile mpi_comm use_mpi stdout stderr w
   = (Raise (Exn type (exc_value exc) (exc_traceback exc)), record_call c w)) ∧
  (err = 0 →
   run_dakota P pyDAKOTA infile mpi_comm use_mpi stdout stderr w
   = (Ok tt, record_call c w)).
Proof.
  intros c Heng. rewrite run_dakota_selected. fold c. simpl. rewrite Heng.
  split; [|split].
  - intros Herr ->. apply Z.eqb_neq in Herr. by rewrite Herr.
  - intros Herr type ->. apply Z.eqb_neq in Herr. by rewrite Herr.
  - by intros ->.
Qed.

Lemma run_dakota_status_witness :
  let c := pyDAKOTA_run_dakota_mpi "dakota.in" (Communicator 0 4) None None in
  run_dakota example_process aborting_engine "dakota.in" None true None None
    example_world
  = (raise_ "RuntimeError" "DAKOTA analysis failed",
     record_call c example_world) ∧
  run_dakota example_process failing_engine "dakota.in" None true None None
    example_world
  = (Raise (Exn "ValueError" (Str "bad variable bounds")
              (Some ["dakota_callback"])),
     record_call c example_world) ∧
  run_dakota example_process quiet_engine "dakota.in" None true None None
    example_world
  = (Ok tt, record_call c example_world).
Proof.
  intros c. split; [|split].
  - destruct (run_dakota_status example_process aborting_engine "dakota.in"
                None true None None example_world 1 _ExcInfo_init)
      as (H & _ & _); [reflexivity |].
    apply H; [lia | reflexivity].
  - destruct (run_dakota_status example_process failing_engine "dakota.in"
                None true None None example_world 1
                (Build_ExcInfo (Some "ValueError") (Str "bad variable bounds")
                   (Some ["dakota_callback"])))
      as (_ & H & _); [reflexivity |].
    apply (H ltac:(lia) "ValueError"). reflexivity.
  - destruct (run_dakota_status example_process quiet_engine "dakota.in"
                None true None None example_world 0 _ExcInfo_init)
      as (_ & _ & H); [reflexivity |].
    apply H. reflexivity.
Defined.

(** ** DakotaBase.run_dakota *)

(** C6, as the code has it.  The rank that decides is the rank of the
    process in the module-level communicator [comm = MPI.COMM_WORLD], not
    the rank in the communicator passed as [mpi_comm].  In a process whose
    rank in [comm] is not zero, [DakotaBase.run_dakota] returns with the
    world as it was, whatever [mpi_comm] is: no file is written, nothing is
    registered and the engine is not called.  In the process of rank zero
    in [comm] it is [write_input] of the driver's input with the driver as
    data, followed by [run_dakota]; when that input has no
    analysis_components line of its own, the file is there afterwards and
    the engine has been called once more. *)
Theorem DakotaBase_run_dakota_rank (P : process)
    (pyDAKOTA : engine_call → _ExcInfo → world → Z * _ExcInfo)
    (self : N) (infile : string) (mpi_comm : option communicator)
    (use_mpi : bool) (stdout stderr : option string) (w : world) :
  (Get_rank (comm P) ≠ 0 →
   DakotaBase_run_dakota P pyDAKOTA self infile mpi_comm use_mpi stdout stderr w
   = (Ok tt, w)) ∧
  (Get_rank (comm P) = 0 →
   ∀ o kwargs, heap w !! self = Some o →
     obj_input o = Some (DakotaInput_init kwargs) →
     let r := DakotaBase_run_dakota P pyDAKOTA self infile mpi_comm use_mpi
                stdout stderr w in
     r = and_then (write_input (DakotaInput_init kwargs) infile (Some self))
           (run_dakota P pyDAKOTA infile mpi_comm use_mpi stdout stderr) w ∧
     ((∀ i l, DakotaInput_init kwargs !! "interface" = Some i → l ∈ i →
              contains "analysis_components" l = false) →
      is_Some (files r.2 !! infile) ∧
      engine_calls r.2
      = engine_calls w
        ++ [selected_call P infile mpi_comm use_mpi stdout stderr])).
Proof.
  split.
  - intros Hrank. unfold DakotaBase_run_dakota.
    apply Z.eqb_neq in Hrank. by rewrite Hrank.
  - intros Hrank o kwargs Ho Hin r.
    assert (r = and_then (write_input (DakotaInput_init kwargs) infile
                            (Some self))
                  (run_dakota P pyDAKOTA infile mpi_comm use_mpi stdout stderr)
                  w) as Hr.
    { subst r. unfold DakotaBase_run_dakota. by rewrite Hrank, Ho, Hin. }
    split; [done |]. intros Hfree. rewrite Hr.
    unfold and_then, bind.
    destruct (write_input_init kwargs infile (Some self) w)
      as (e & m & mo & v & i & rs & Hi & _ & _ & _ & ->).
    assert (existsb (contains "analysis_components") i = false) as ->.
    { destruct (existsb _ i) eqn:Hex; [|done].
      apply existsb_exists in Hex as (l & Hl & Hc).
      rewrite (Hfree i l Hi) in Hc; [done |]. by apply list_elem_of_In. }
    rewrite run_dakota_selected. simpl.
    destruct (pyDAKOTA _ _ _) as [err exc].
    destruct (negb (err =? 0)); [destruct (exc_type exc) |]; simpl;
      by rewrite lookup_insert_eq.
Qed.

Lemma DakotaBase_run_dakota_rank_witness :
  let other := Process 4243 "linux2" (Communicator 3 4)
                 (Some (Communicator 3 4)) in
  DakotaBase_run_dakota other quiet_engine 140%N "dakota.in" None true None
    None example_world = (Ok tt, example_world) ∧
  engine_calls
    (DakotaBase_run_dakota example_process quiet_engine 140%N "dakota.in"
       None true None None example_world).2
  = [pyDAKOTA_run_dakota_mpi "dakota.in" (Communicator 0 4) None None].
Proof.
  intros other. split.
  - apply (DakotaBase_run_dakota_rank other quiet_engine 140%N "dakota.in"
             None true None None example_world).
    simpl. lia.
  - destruct (DakotaBase_run_dakota_rank example_process quiet_engine 140%N
                "dakota.in" None true None None example_world) as [_ H].
    destruct (H eq_refl (DakotaBase_init (Subclass "Rosenbrock") 1) ∅)
      as [_ H']; [reflexivity | reflexivity |].
    apply H'. intros i l [= <-] Hl.
    repeat (apply elem_of_cons in Hl as [-> | Hl]; [reflexivity |]).
    by apply elem_of_nil in Hl.
Defined.

(** C6, as stated, fails.  The method is invoked with a communicator of two
    processes in which the rank of this process is 1, in a process whose
    rank in [comm] is 0: the file, which was not there, is written, and the
    engine, which had not been called, is called with that communicator. *)
Lemma DakotaBase_run_dakota_rank_counterexample :
  let c := Communicator 1 2 in
  let r := DakotaBase_run_dakota example_process quiet_engine 140%N
             "dakota.in" (Some c) true None None example_world in
  Get_rank c ≠ 0 ∧ 1 < Get_size c ∧
  files example_world !! "dakota.in" = None ∧
  is_Some (files r.2 !! "dakota.in") ∧
  engine_calls example_world = [] ∧
  engine_calls r.2 = [pyDAKOTA_run_dakota_mpi "dakota.in" c None None].
Proof.
  intros c r.
  split; [discriminate |]. split; [reflexivity |]. split; [reflexivity |].
  split; [by eexists |]. split; reflexivity.
Qed.

(** ** The layout of the written file *)

(** [str(id(data))] is made of digits. *)
Lemma pretty_N_go_no_newline (x : N) :
  ∀ s, no_newline s = true → no_newline (pretty_N_go x s) = true.
Proof.
  pattern x. apply (well_founded_induction N.lt_wf_0). clear x.
  intros x IH s Hs.
  destruct (decide (x = 0%N)) as [-> | Hx].
  - by rewrite pretty_N_go_0.
  - rewrite pretty_N_go_step by lia.
    apply IH; [apply N.div_lt; lia |].
    simpl. rewrite Hs, andb_true_r.
    unfold pretty_N_char. by repeat case_match.
Qed.

Lemma pretty_N_no_newline (d : N) : no_newline (pretty d) = true.
Proof.
  unfold pretty, pretty_N. case_decide; [done |].
  by apply pretty_N_go_no_newline.
Qed.

Lemma analysis_components_content_no_newline (d : N) :
  no_newline (analysis_components_content (pretty d)) = true.
Proof.
  unfold analysis_components_content.
  by rewrite !no_newline_app, pretty_N_no_newline.
Qed.

Lemma indented_tab (l : string) : indented (tab +:+ l) = Some l.
Proof. done. Qed.

Lemma parse_sections_body (body : list string) (rest : list string) :
  parse_sections (map (String.append tab) body ++ rest)
  = (body ++ (parse_sections rest).1, (parse_sections rest).2).
Proof.
  induction body as [|l body IH]; simpl.
  - by destruct (parse_sections rest).
  - by rewrite IH.
Qed.

Lemma parse_sections_layout (sections : list (string * list string)) :
  Forall (λ s, indented s.1 = None) sections →
  parse_sections (layout sections) = ([], sections).
Proof.
  induction 1 as [|[name body] sections Hname _ IH]; [done |].
  unfold layout in *. simpl in *.
  rewrite parse_sections_body, IH, Hname. simpl. by rewrite app_nil_r.
Qed.

(** A file made of sections with proper names and lines reads back as
    those sections. *)
Lemma file_sections_file_text (sections : list (string * list string)) :
  forallb (λ s, no_newline s.1 && forallb no_newline s.2) sections = true →
  Forall (λ s, indented s.1 = None) sections →
  file_sections (file_text sections) = sections.
Proof.
  intros Hnl Hnames. unfold file_sections.
  by rewrite (lines_file_text _ Hnl), (parse_sections_layout _ Hnames).
Qed.

Lemma default_file_proper (data : option N) :
  forallb (λ s, no_newline s.1 && forallb no_newline s.2) (default_file data)
  = true ∧
  Forall (λ s, indented s.1 = None) (default_file data).
Proof.
  split.
  - unfold default_file.
    cbn [forallb fst snd]. rewrite forallb_app.
    destruct data as [d|]; [|done].
    cbn [forallb]. by rewrite analysis_components_content_no_newline.
  - unfold default_file. by repeat constructor.
Qed.

Lemma write_input_default (kwargs : DakotaInput) (infile : string)
    (data : option N) (w : world) :
  (∀ name, name ∈ section_order → kwargs !! name = None) →
  write_input (DakotaInput_init kwargs) infile data w
  = (Ok tt,
     set_files <[infile := file_text (default_file data)]>
       match data with
       | Some d => set_USER_DATA <[Str (pretty d) := d]> w
       | None => w
       end).
Proof.
  intros Hk.
  rewrite (write_input_run _ infile data w default_environment default_method
             default_model default_variables default_interface
             default_responses).
  - by destruct data.
  - rewrite (DakotaInput_init_lookup _ _ default_environment) by done.
    rewrite Hk; [done | set_solver].
  - rewrite (DakotaInput_init_lookup _ _ default_method) by done.
    rewrite Hk; [done | set_solver].
  - rewrite (DakotaInput_init_lookup _ _ default_model) by done.
    rewrite Hk; [done | set_solver].
  - rewrite (DakotaInput_init_lookup _ _ default_variables) by done.
    rewrite Hk; [done | set_solver].
  - rewrite (DakotaInput_init_lookup _ _ default_interface) by done.
    rewrite Hk; [done | set_solver].
  - rewrite (DakotaInput_init_lookup _ _ default_responses) by done.
    rewrite Hk; [done | set_solver].
Qed.

Lemma filter_headers_layout (sections : list (string * list string)) :
  Forall (λ s, indented s.1 = None) sections →
  filter (λ l, indented l = None) (layout sections) = map fst sections.
Proof.
  induction 1 as [|[name body] sections Hname _ IH]; [done |].
  unfold layout in *. simpl in *.
  rewrite filter_cons_True by done. rewrite filter_app, IH. f_equal.
  replace (filter _ (map (String.append tab) body)) with (@nil string); [done |].
  induction body as [|l body IHb]; [done |].
  simpl. by rewrite filter_cons_False.
Qed.

(** C7. A [DakotaInput] with the default sections (other attributes may
    have been passed) is written as six sections and no more: the lines of
    the file are, for environment, method, model, variables, interface and
    responses in this order, the header alone on its line and then each
    content line behind one tab; the lines without a tab are exactly the
    six headers in that order. *)
Theorem write_input_default_layout (kwargs : DakotaInput) (infile : string)
    (data : option N) (w : world) :
  (∀ name, name ∈ section_order → kwargs !! name = None) →
  ∃ w' text,
    write_input (DakotaInput_init kwargs) infile data w = (Ok tt, w') ∧
    files w' !! infile = Some text ∧
    lines text = layout (default_file data) ∧
    map fst (default_file data) = section_order ∧
    filter (λ l, indented l = None) (lines text) = section_order ∧
    file_sections text = default_file data.
Proof.
  intros Hk. eexists _, (file_text (default_file data)).
  split; [by apply write_input_default |].
  split; [apply lookup_insert_eq |].
  destruct (default_file_proper data) as [Hnl Hnames].
  rewrite (lines_file_text _ Hnl).
  split; [done |]. split; [done |].
  split; [by rewrite (filter_headers_layout _ Hnames) |].
  by apply file_sections_file_text.
Qed.

Lemma write_input_default_layout_witness :
  ∃ w' text,
    write_input (DakotaInput_init {["title" := ["Rosenbrock study"]]})
      "dakota.in" None example_world = (Ok tt, w') ∧
    files w' !! "dakota.in" = Some text ∧
    lines text = layout (default_file None) ∧
    map fst (default_file None) = section_order ∧
    filter (λ l, indented l = None) (lines text) = section_order ∧
    file_sections text = default_file None.
Proof.
  apply (write_input_default_layout {["title" := ["Rosenbrock study"]]}
           "dakota.in" None example_world).
  intros name Hname. apply lookup_singleton_ne.
  unfold section_order in Hname.
  repeat (apply elem_of_cons in Hname as [-> | Hname]; [done |]).
  by apply elem_of_nil in Hname.
Defined.

(** C9. A default-constructed [DakotaInput] written with the live driver
    [driverX] as data gives a file whose variables section has the line
    [continuous_design = 2] and whose interface section ends with the
    analysis_components line; the key between the quotes of that line
    resolves through [fetch_data] to [driverX]. *)
Theorem write_input_default_driver (infile : string) (driverX : N)
    (w : world) :
  is_Some (heap w !! driverX) →
  ∃ w' text variables interface line ident,
    write_input (DakotaInput_init ∅) infile (Some driverX) w = (Ok tt, w') ∧
    files w' !! infile = Some text ∧
    section_body "variables" (file_sections text) = Some variables ∧
    "continuous_design = 2" ∈ variables ∧
    section_body "interface" (file_sections text) = Some interface ∧
    last interface = Some line ∧
    line = analysis_components_content ident ∧
    analysis_components_key line = Some ident ∧
    fetch_data (Str ident) w' = (Ok driverX, w').
Proof.
  intros Hlive.
  eexists _, (file_text (default_file (Some driverX))), default_variables, _,
    (analysis_components_content (pretty driverX)), (pretty driverX).
  split; [by apply write_input_default |].
  split; [apply lookup_insert_eq |].
  destruct (default_file_proper (Some driverX)) as [Hnl Hnames].
  rewrite (file_sections_file_text _ Hnl Hnames).
  split; [done |]. split; [set_solver |].
  split; [done |]. split; [by rewrite last_snoc |].
  split; [done |]. split; [apply analysis_components_key_content |].
  unfold fetch_data. f_equal.
  unfold weak_getitem. simpl. rewrite lookup_insert_eq.
  by destruct Hlive as [o ->].
Qed.

Lemma write_input_default_driver_witness :
  ∃ w' text variables interface line ident,
    write_input (DakotaInput_init ∅) "study.in" (Some 140%N) example_world
    = (Ok tt, w') ∧
    files w' !! "study.in" = Some text ∧
    section_body "variables" (file_sections text) = Some variables ∧
    "continuous_design = 2" ∈ variables ∧
    section_body "interface" (file_sections text) = Some interface ∧
    last interface = Some line ∧
    line = analysis_components_content ident ∧
    analysis_components_key line = Some ident ∧
    fetch_data (Str ident) w' = (Ok 140%N, w').
Proof.
  apply (write_input_default_driver "study.in" 140%N example_world).
  by eexists.
Defined.

(** ** Further facts *)

(** Keys are [str(id(data))], and two live objects have two addresses:
    registering a second driver leaves the key of the first in place. *)
Lemma fetch_data_other_driver (kwargs : DakotaInput) (infile : string)
    (d1 d2 : N) (w w' : world) :
  d1 ≠ d2 →
  fetch_data (Str (pretty d1)) w = (Ok d1, w) →
  write_input (DakotaInput_init kwargs) infile (Some d2) w = (Ok tt, w') →
  fetch_data (Str (pretty d1)) w' = (Ok d1, w').
Proof.
  intros Hne [= Hf] Hw.
  destruct (write_input_init kwargs infile (Some d2) w)
    as (e & m & mo & v & i & r & _ & _ & _ & _ & Hrun).
  rewrite Hrun in Hw.
  destruct (existsb (contains "analysis_components") i); [discriminate |].
  injection Hw as <-.
  unfold fetch_data. f_equal. unfold weak_getitem in *. simpl.
  rewrite lookup_insert_ne; [done |].
  intros [= Heq]. by apply (inj pretty) in Heq.
Qed.

(** Calling the base class method is an error. *)
Lemma DakotaBase_dakota_callback_not_implemented (self : N)
    (kwargs : gmap string val) (w : world) :
  DakotaBase_dakota_callback self kwargs w
  = (raise_ "NotImplementedError" "dakota_callback", w).
Proof. done. Qed.

(** * More of the module *)

(** ** The constructor *)

Lemma setattr_all_union (items : list (string * list string))
    (self : DakotaInput) :
  setattr_all items self = list_to_map (reverse items) ∪ self.
Proof.
  unfold setattr_all. revert self.
  induction items as [|[k v] items IH]; intros self; simpl.
  - by rewrite (left_id ∅ (∪)).
  - rewrite IH, reverse_cons, list_to_map_app. simpl.
    rewrite <- (assoc_L (∪)). f_equal.
    by rewrite insert_empty, <- insert_union_singleton_l.
Qed.

(** The keyword loop of [DakotaInput.__init__], run over the items of
    [kwargs] in any order, builds the object in which every keyword holds
    its argument and every other attribute its default. *)
Theorem DakotaInput_init_setattr (kwargs : DakotaInput)
    (items : list (string * list string)) :
  items ≡ₚ map_to_list kwargs →
  setattr_all items default_sections = DakotaInput_init kwargs ∧
  ∀ key, DakotaInput_init kwargs !! key
         = match kwargs !! key with
           | Some lines => Some lines
           | None => default_sections !! key
           end.
Proof.
  intros Hperm. split.
  - rewrite setattr_all_union. unfold DakotaInput_init. f_equal.
    rewrite <- (list_to_map_to_list kwargs).
    apply list_to_map_proper.
    + rewrite reverse_Permutation, Hperm. apply NoDup_fst_map_to_list.
    + by rewrite reverse_Permutation, Hperm.
  - intros key. unfold DakotaInput_init.
    destruct (kwargs !! key) as [lines|] eqn:Hk.
    + by apply lookup_union_Some_l.
    + by rewrite lookup_union_r.
Qed.

Lemma DakotaInput_init_setattr_witness :
  setattr_all [("method", ["sampling"]); ("title", ["x"])] default_sections
  = DakotaInput_init {["title" := ["x"]; "method" := ["sampling"]]}.
Proof.
  apply (DakotaInput_init_setattr
           {["title" := ["x"]; "method" := ["sampling"]]}
           [("method", ["sampling"]); ("title", ["x"])]).
  by vm_compute.
Defined.

(** ** The writer *)

Lemma write_input_written (kwargs : DakotaInput) (infile : string)
    (data : option N) (w : world) :
  write_input (DakotaInput_init kwargs) infile data w
  = if interface_conflict (DakotaInput_init kwargs) data then
      (raise_ "RuntimeError"
         "Cannot specify both analysis_components and data",
       set_files <[infile := file_text
         (take 5 (written_sections (DakotaInput_init kwargs) None))]> w)
    else
      (Ok tt,
       set_files <[infile := file_text
         (written_sections (DakotaInput_init kwargs) data)]>
         (registered data w)).
Proof.
  pose proof (DakotaInput_init_lookup kwargs _ _
                (eq_refl : default_sections !! "environment" = Some _)) as H1.
  pose proof (DakotaInput_init_lookup kwargs _ _
                (eq_refl : default_sections !! "method" = Some _)) as H2.
  pose proof (DakotaInput_init_lookup kwargs _ _
                (eq_refl : default_sections !! "model" = Some _)) as H3.
  pose proof (DakotaInput_init_lookup kwargs _ _
                (eq_refl : default_sections !! "variables" = Some _)) as H4.
  pose proof (DakotaInput_init_lookup kwargs _ _
                (eq_refl : default_sections !! "interface" = Some _)) as H5.
  pose proof (DakotaInput_init_lookup kwargs _ _
                (eq_refl : default_sections !! "responses" = Some _)) as H6.
  rewrite (write_input_run _ infile data w _ _ _ _ _ _ H1 H2 H3 H4 H5 H6).
  unfold written_sections, interface_conflict, registered.
  rewrite H1, H2, H3, H4, H5, H6. cbn [default take].
  destruct data as [d|]; [|by rewrite app_nil_r].
  destruct (existsb _ _); by rewrite ?app_nil_r.
Qed.

Lemma DakotaInput_init_section (kwargs : DakotaInput) (name : string) :
  name ∈ section_order → is_Some (DakotaInput_init kwargs !! name).
Proof.
  intros Hname. unfold section_order in Hname.
  repeat (apply elem_of_cons in Hname as [-> | Hname];
          [eexists; by apply DakotaInput_init_lookup |]).
  by apply elem_of_nil in Hname.
Qed.

Lemma DakotaInput_init_agree (kwargs kwargs' : DakotaInput) (name : string) :
  kwargs !! name = kwargs' !! name →
  DakotaInput_init kwargs !! name = DakotaInput_init kwargs' !! name.
Proof.
  intros Hk. unfold DakotaInput_init.
  destruct (kwargs !! name) as [l|] eqn:H1.
  - rewrite (lookup_union_Some_l _ _ _ _ H1).
    symmetry. by apply lookup_union_Some_l.
  - by rewrite !lookup_union_r.
Qed.

(** Keywords other than the six section names become attributes that
    [write_input] never looks at: two objects built from keywords that
    agree on the six names are written alike. *)
Theorem write_input_sections_only (kwargs kwargs' : DakotaInput)
    (infile : string) (data : option N) (w : world) :
  (∀ name, name ∈ section_order → kwargs !! name = kwargs' !! name) →
  write_input (DakotaInput_init kwargs) infile data w
  = write_input (DakotaInput_init kwargs') infile data w.
Proof.
  intros Hagree. rewrite !write_input_written.
  unfold written_sections, interface_conflict.
  rewrite (DakotaInput_init_agree kwargs kwargs' "environment"),
    (DakotaInput_init_agree kwargs kwargs' "method"),
    (DakotaInput_init_agree kwargs kwargs' "model"),
    (DakotaInput_init_agree kwargs kwargs' "variables"),
    (DakotaInput_init_agree kwargs kwargs' "interface"),
    (DakotaInput_init_agree kwargs kwargs' "responses");
    [done | apply Hagree; set_solver ..].
Qed.

Lemma write_input_sections_only_witness :
  write_input
    (DakotaInput_init {["method" := ["sampling"]; "title" := ["x"]]})
    "dakota.in" (Some 140%N) example_world
  = write_input (DakotaInput_init {["method" := ["sampling"]]})
      "dakota.in" (Some 140%N) example_world.
Proof.
  apply (write_input_sections_only
           {["method" := ["sampling"]; "title" := ["x"]]}
           {["method" := ["sampling"]]}).
  intros name Hname. unfold section_order in Hname.
  repeat (apply elem_of_cons in Hname as [-> | Hname]; [reflexivity |]).
  by apply elem_of_nil in Hname.
Defined.

Lemma write_sections_frame (self : DakotaInput) (data : option N)
    (sections : list string) (out : string) (w : world) :
  let w' := (write_sections self data sections out w).2 in
  heap w' = heap w ∧ files w' = files w ∧
  logged_errors w' = logged_errors w ∧ engine_calls w' = engine_calls w ∧
  (_USER_DATA w' = _USER_DATA w ∨
   ∃ d, data = Some d ∧ _USER_DATA w' = <[Str (pretty d) := d]> (_USER_DATA w)).
Proof.
  revert out w. induction sections as [|section rest IH]; intros out w.
  - simpl. by eauto 10.
  - cbn [write_sections].
    destruct (self !! section) as [lines|]; [|simpl; by eauto 10].
    destruct data as [d|]; [|apply IH].
    destruct (String.eqb section "interface"); [|apply IH].
    destruct (existsb _ lines); [simpl; by eauto 10 |].
    specialize (IH (write_lines lines (out +:+ section +:+ nl)
                    +:+ analysis_components_line (pretty d))
                   (set_USER_DATA <[Str (pretty d) := d]> w)).
    simpl in IH. destruct IH as (-> & -> & -> & -> & IH).
    do 4 (split; [done |]). right. exists d. split; [done |].
    destruct IH as [-> | (d' & [= <-] & ->)]; simpl; [done |].
    by rewrite insert_insert_eq.
Qed.

(** [write_input] adds at most one key and takes none away: every key of
    [_USER_DATA] other than that of the data object points where it
    pointed, and the heap, the log and the record of engine calls are as
    before, whether the call raised or not. *)
Theorem write_input_frame (self : DakotaInput) (infile : string)
    (data : option N) (w : world) :
  let w' := (write_input self infile data w).2 in
  heap w' = heap w ∧
  logged_errors w' = logged_errors w ∧
  engine_calls w' = engine_calls w ∧
  (∀ key, (∀ d, data = Some d → key ≠ Str (pretty d)) →
          _USER_DATA w' !! key = _USER_DATA w !! key).
Proof.
  unfold write_input.
  pose proof (write_sections_frame self data section_order "" w) as Hf.
  destruct (write_sections self data section_order "" w) as [[r out] w1].
  simpl in *. destruct Hf as (-> & _ & -> & -> & Hreg).
  do 3 (split; [done |]).
  intros key Hkey. destruct Hreg as [-> | (d & -> & ->)]; [done |].
  rewrite lookup_insert_ne; [done |]. intros <-. by apply (Hkey d).
Qed.

Lemma write_input_frame_witness :
  let w1 := (write_input (DakotaInput_init ∅) "first.in" (Some 140%N)
               example_world).2 in
  let w' := (write_input (DakotaInput_init ∅) "dakota.in" (Some 152%N) w1).2 in
  _USER_DATA w' !! Str "140" = _USER_DATA w1 !! Str "140" ∧
  _USER_DATA w1 !! Str "140" = Some 140%N.
Proof.
  intros w1 w'. split; [|reflexivity].
  destruct (write_input_frame (DakotaInput_init ∅) "dakota.in" (Some 152%N) w1)
    as (_ & _ & _ & Hkeys).
  apply (Hkeys (Str "140")). intros d [= <-]. discriminate.
Defined.

(** Without a data object [write_input] does not scan the interface: it
    succeeds on every constructed [DakotaInput], also on one whose
    interface has its own analysis_components line, writes the six
    sections as they are and registers nothing. *)
Theorem write_input_no_data (kwargs : DakotaInput) (infile : string)
    (w : world) :
  write_input (DakotaInput_init kwargs) infile None w
  = (Ok tt,
     set_files <[infile := file_text
       (written_sections (DakotaInput_init kwargs) None)]> w) ∧
  ∀ lines, kwargs !! "interface" = Some lines →
    section_body "interface" (written_sections (DakotaInput_init kwargs) None)
    = Some lines.
Proof.
  split; [by rewrite write_input_written |].
  intros lines Hl. unfold written_sections. simpl.
  rewrite (DakotaInput_init_lookup kwargs _ default_interface) by done.
  by rewrite Hl, app_nil_r.
Qed.

(** On the conflict the file stays as far as it was written: the first
    five sections, the interface without an identity line, and no
    responses section.  Nothing else in the world is changed. *)
Theorem write_input_conflict_partial_file (kwargs : DakotaInput)
    (iface : list string) (line infile : string) (d : N) (w : world) :
  kwargs !! "interface" = Some iface →
  line ∈ iface →
  contains "analysis_components" line = true →
  let self := DakotaInput_init kwargs in
  (write_input self infile (Some d) w).2
  = set_files <[infile := file_text
      [("environment", default [] (self !! "environment"));
       ("method", default [] (self !! "method"));
       ("model", default [] (self !! "model"));
       ("variables", default [] (self !! "variables"));
       ("interface", iface)]]> w.
Proof.
  intros Hi Hl Hc self. subst self. rewrite write_input_written.
  unfold interface_conflict, written_sections.
  rewrite (DakotaInput_init_lookup kwargs _ default_interface) by done.
  rewrite Hi. cbn [default take]. cbv [id].
  assert (existsb (contains "analysis_components") iface = true) as ->.
  { apply existsb_exists. exists line. by rewrite <- list_elem_of_In. }
  simpl. by rewrite app_nil_r.
Qed.

Lemma write_input_conflict_partial_file_witness :
  files
    (write_input
       (DakotaInput_init {["interface" := ["analysis_components = 'mine'"]]})
       "dakota.in" (Some 140%N) example_world).2 !! "dakota.in"
  = Some (file_text
      [("environment", default_environment);
       ("method", default_method);
       ("model", default_model);
       ("variables", default_variables);
       ("interface", ["analysis_components = 'mine'"])]).
Proof.
  rewrite (write_input_conflict_partial_file
             {["interface" := ["analysis_components = 'mine'"]]}
             ["analysis_components = 'mine'"]
             "analysis_components = 'mine'" "dakota.in" 140%N example_world);
    [reflexivity | reflexivity | set_solver | reflexivity].
Defined.

Lemma write_input_no_data_witness :
  let kwargs : DakotaInput :=
    {["interface" := ["fork"; "  analysis_components = 'mine'"]]} in
  write_input (DakotaInput_init kwargs) "dakota.in" None example_world
  = (Ok tt,
     set_files <["dakota.in" := file_text
       (written_sections (DakotaInput_init kwargs) None)]> example_world) ∧
  section_body "interface" (written_sections (DakotaInput_init kwargs) None)
  = Some ["fork"; "  analysis_components = 'mine'"].
Proof.
  intros kwargs.
  destruct (write_input_no_data kwargs "dakota.in" example_world) as [H1 H2].
  split; [exact H1 |]. apply H2. reflexivity.
Defined.

(** Writing the same input again changes nothing: the file is opened for
    writing, so it is replaced, and the key is assigned the same object. *)
Theorem write_input_twice (kwargs : DakotaInput) (infile : string)
    (data : option N) (w : world) :
  write_input (DakotaInput_init kwargs) infile data
    (write_input (DakotaInput_init kwargs) infile data w).2
  = write_input (DakotaInput_init kwargs) infile data w.
Proof.
  rewrite !write_input_written.
  destruct (interface_conflict _ data); simpl.
  - unfold set_files. simpl. by rewrite insert_insert_eq.
  - unfold set_files, registered, set_USER_DATA.
    destruct data as [d|]; simpl; by rewrite !insert_insert_eq.
Qed.

Lemma written_sections_proper (kwargs : DakotaInput) (data : option N) :
  (∀ name lines, name ∈ section_order →
     DakotaInput_init kwargs !! name = Some lines →
     forallb no_newline lines = true) →
  forallb (λ s, no_newline s.1 && forallb no_newline s.2)
    (written_sections (DakotaInput_init kwargs) data) = true ∧
  Forall (λ s, indented s.1 = None)
    (written_sections (DakotaInput_init kwargs) data).
Proof.
  intros Hnl. split; [|unfold written_sections; by repeat constructor].
  assert (∀ name, name ∈ section_order →
            forallb no_newline (default [] (DakotaInput_init kwargs !! name))
            = true) as Hsec.
  { intros name Hname.
    destruct (DakotaInput_init_section kwargs name Hname) as [lines Hl].
    rewrite Hl. by apply (Hnl name). }
  unfold written_sections. cbn [forallb fst snd].
  rewrite forallb_app, !Hsec by set_solver.
  destruct data as [d|]; [|done].
  cbn [forallb]. by rewrite analysis_components_content_no_newline.
Qed.

(** Round trip.  When no line of the six sections holds a newline and the
    write succeeds, the file read back section by section is the six
    sections in the fixed order, each with the lines of its attribute, the
    interface with the identity line after them when data was given. *)
Theorem write_input_read_back (kwargs : DakotaInput) (infile : string)
    (data : option N) (w w' : world) :
  (∀ name lines, name ∈ section_order →
     DakotaInput_init kwargs !! name = Some lines →
     forallb no_newline lines = true) →
  write_input (DakotaInput_init kwargs) infile data w = (Ok tt, w') →
  ∃ text,
    files w' !! infile = Some text ∧
    lines text = layout (written_sections (DakotaInput_init kwargs) data) ∧
    file_sections text = written_sections (DakotaInput_init kwargs) data.
Proof.
  intros Hnl Hw. rewrite write_input_written in Hw.
  destruct (interface_conflict _ data); [discriminate |].
  injection Hw as <-.
  destruct (written_sections_proper kwargs data Hnl) as [Hp Hn].
  exists (file_text (written_sections (DakotaInput_init kwargs) data)).
  split; [apply lookup_insert_eq |].
  split; [by apply lines_file_text | by apply file_sections_file_text].
Qed.

Lemma write_input_read_back_witness :
  let kwargs : DakotaInput :=
    {["method" := ["sampling"; "  samples = 10"]; "model" := []]} in
  ∃ text,
    files (write_input (DakotaInput_init kwargs) "dakota.in" (Some 140%N)
             example_world).2 !! "dakota.in" = Some text ∧
    lines text
    = layout (written_sections (DakotaInput_init kwargs) (Some 140%N)) ∧
    file_sections text
    = written_sections (DakotaInput_init kwargs) (Some 140%N).
Proof.
  intros kwargs.
  apply (write_input_read_back kwargs "dakota.in" (Some 140%N) example_world).
  - intros name lines Hname. unfold section_order in Hname.
    repeat (apply elem_of_cons in Hname as [-> | Hname];
            [by intros [= <-] |]).
    by apply elem_of_nil in Hname.
  - reflexivity.
Defined.

(** The scan is a search for the text.  With a data object, the
    RuntimeError of the conflict is raised only when some interface line
    has the characters [analysis_components] somewhere in it; and when a
    line has them, be it in a comment or inside a longer word, the call
    does not return normally and registers nothing. *)
Theorem write_input_conflict_scan (kwargs : DakotaInput) (infile : string)
    (d : N) (w : world) :
  let r := write_input (DakotaInput_init kwargs) infile (Some d) w in
  let found :=
    ∃ iface line before after,
      DakotaInput_init kwargs !! "interface" = Some iface ∧
      line ∈ iface ∧
      line = before +:+ "analysis_components" +:+ after in
  (r.1 = raise_ "RuntimeError"
           "Cannot specify both analysis_components and data" → found) ∧
  (found → (∃ e, r.1 = Raise e) ∧ _USER_DATA r.2 = _USER_DATA w).
Proof.
  simpl. rewrite write_input_written. unfold interface_conflict.
  destruct (DakotaInput_init_section kwargs "interface") as [iface Hi];
    [set_solver |].
  rewrite Hi. simpl.
  destruct (existsb (contains "analysis_components") iface) eqn:Hex; simpl.
  - split; [intros _ | by eauto].
    apply existsb_exists in Hex as (line & Hl & Hc).
    apply contains_spec in Hc as (a & b & ->).
    exists iface, (a +:+ "analysis_components" +:+ b), a, b.
    by rewrite list_elem_of_In.
  - split; [done |].
    intros (iface' & line & a & b & [= <-] & Hl & ->).
    assert (existsb (contains "analysis_components") iface = true) as Hex';
      [|congruence].
    apply existsb_exists. exists (a +:+ "analysis_components" +:+ b).
    split; [by apply list_elem_of_In |].
    apply contains_spec. by exists a, b.
Qed.

Lemma write_input_conflict_scan_witness :
  let kwargs : DakotaInput :=
    {["interface" := ["# analysis_components off"]]} in
  let r := write_input (DakotaInput_init kwargs) "dakota.in" (Some 140%N)
             example_world in
  (∃ iface line before after,
     DakotaInput_init kwargs !! "interface" = Some iface ∧
     line ∈ iface ∧
     line = before +:+ "analysis_components" +:+ after) ∧
  (∃ e, r.1 = Raise e) ∧ _USER_DATA r.2 = _USER_DATA example_world.
Proof.
  intros kwargs r.
  destruct (write_input_conflict_scan kwargs "dakota.in" 140%N example_world)
    as [Honly Hif].
  split.
  - apply Honly. reflexivity.
  - apply Hif.
    exists ["# analysis_components off"], "# analysis_components off",
      "# ", " off".
    split; [reflexivity |]. split; [by constructor | reflexivity].
Defined.

(** ** The registry *)

(** Two drivers written one after the other are both found again, each
    under its own key: the second registration does not displace the
    first. *)
Theorem write_input_two_drivers (kwargs1 kwargs2 : DakotaInput)
    (infile1 infile2 : string) (d1 d2 : N) (w w1 w2 : world) :
  d1 ≠ d2 →
  is_Some (heap w !! d1) → is_Some (heap w !! d2) →
  write_input (DakotaInput_init kwargs1) infile1 (Some d1) w = (Ok tt, w1) →
  write_input (DakotaInput_init kwargs2) infile2 (Some d2) w1 = (Ok tt, w2) →
  fetch_data (Str (pretty d1)) w2 = (Ok d1, w2) ∧
  fetch_data (Str (pretty d2)) w2 = (Ok d2, w2).
Proof.
  intros Hne [o1 Ho1] [o2 Ho2] Hw1 Hw2.
  rewrite write_input_written in Hw1, Hw2.
  destruct (interface_conflict _ (Some d1)); [discriminate |].
  destruct (interface_conflict _ (Some d2)); [discriminate |].
  injection Hw1 as <-. injection Hw2 as <-.
  unfold fetch_data, weak_getitem. simpl. split.
  - rewrite lookup_insert_ne, lookup_insert_eq, Ho1; [done |].
    intros [= Heq]. apply (inj pretty) in Heq. congruence.
  - by rewrite lookup_insert_eq, Ho2.
Qed.

Lemma write_input_two_drivers_witness :
  let w1 := (write_input (DakotaInput_init ∅) "a.in" (Some 140%N)
               example_world).2 in
  let w2 := (write_input (DakotaInput_init ∅) "b.in" (Some 152%N) w1).2 in
  fetch_data (Str "140") w2 = (Ok 140%N, w2) ∧
  fetch_data (Str "152") w2 = (Ok 152%N, w2).
Proof.
  intros w1 w2.
  apply (write_input_two_drivers ∅ ∅ "a.in" "b.in" 140%N 152%N
           example_world w1 w2).
  - discriminate.
  - by eexists.
  - by eexists.
  - reflexivity.
  - reflexivity.
Defined.

(** [write_input] keeps the registry in order: if every key spells the
    address of a live object before the call, and the data object is
    alive, the same holds after it, whether the call raised or not. *)
Theorem registry_ok_write_input (self : DakotaInput) (infile : string)
    (data : option N) (w : world) :
  registry_ok w →
  (∀ d, data = Some d → is_Some (heap w !! d)) →
  registry_ok (write_input self infile data w).2.
Proof.
  intros Hok Hlive. unfold write_input.
  pose proof (write_sections_frame self data section_order "" w) as Hf.
  destruct (write_sections self data section_order "" w) as [[r out] w1].
  simpl in Hf. destruct Hf as (Hh & _ & _ & _ & Hreg).
  intros key d. simpl. rewrite Hh.
  destruct Hreg as [-> | (d' & -> & ->)]; [apply Hok |].
  intros [[<- <-] | [_ Hk]]%lookup_insert_Some; [|by apply Hok].
  split; [done | by apply Hlive].
Qed.

Lemma registry_ok_write_input_witness :
  registry_ok
    (write_input (DakotaInput_init ∅) "dakota.in" (Some 140%N)
       example_world).2.
Proof.
  apply (registry_ok_write_input (DakotaInput_init ∅) "dakota.in"
           (Some 140%N) example_world).
  - intros key d Hk. vm_compute in Hk. discriminate.
  - intros d [= <-]. by eexists.
Defined.

(** Letting go of an owning reference keeps the registry in order: the
    entries of an object go when the object goes. *)
Theorem registry_ok_release (d : N) (w : world) :
  registry_ok w → registry_ok (release d w).
Proof.
  intros Hok key d' Hk. unfold release in *.
  destruct (heap w !! d) as [o|] eqn:Ho; [|by apply Hok].
  assert (registry_ok (reclaim d w)) as Hrec.
  { intros k x Hx. unfold reclaim in *. simpl in *.
    apply map_lookup_filter_Some in Hx as [Hx Hne]. simpl in Hne.
    destruct (Hok k x Hx) as [-> Hlive]. split; [done |].
    by rewrite lookup_delete_ne. }
  destruct (obj_refs o) as [|[|n]]; [by apply Hrec | by apply Hrec |].
  simpl in *. destruct (Hok key d' Hk) as [-> Hlive]. split; [done |].
  destruct (decide (d = d')) as [<- | Hne].
  - rewrite lookup_insert_eq. by eexists.
  - by rewrite lookup_insert_ne.
Qed.

Lemma example_registry_ok :
  registry_ok
    (write_input (DakotaInput_init ∅) "dakota.in" (Some 140%N)
       example_world).2.
Proof.
  intros key d Hk.
  change (<[Str "140" := 140%N]> (∅ : gmap atom N) !! key = Some d) in Hk.
  apply lookup_insert_Some in Hk as [[<- <-] | [_ Hk]].
  - split; [reflexivity | by eexists].
  - by rewrite lookup_empty in Hk.
Qed.

Lemma registry_ok_release_witness :
  registry_ok
    (release 140%N
       (write_input (DakotaInput_init ∅) "dakota.in" (Some 140%N)
          example_world).2).
Proof.
  apply registry_ok_release. exact example_registry_ok.
Defined.

(** An entry lasts as long as its object: releasing a reference to [d]
    leaves every key resolving as before, unless it was the last owning
    reference to the object the key points to. *)
Theorem fetch_data_release (key : atom) (d d' : N) (w : world) :
  fetch_data key w = (Ok d', w) →
  (d' ≠ d ∨ ∃ o, heap w !! d = Some o ∧ (2 ≤ obj_refs o)%nat) →
  fetch_data key (release d w) = (Ok d', release d w).
Proof.
  intros [= Hf] Hkeep. unfold fetch_data. f_equal.
  unfold weak_getitem in *.
  destruct (_USER_DATA w !! key) as [x|] eqn:Hk; [|done].
  destruct (heap w !! x) as [ox|] eqn:Hx; [|done].
  injection Hf as ->. unfold release.
  destruct (heap w !! d) as [o|] eqn:Ho; [|by rewrite Hk, Hx].
  destruct (obj_refs o) as [|[|n]] eqn:Hn.
  - destruct Hkeep as [Hne | (o' & [= <-] & Hge)]; [|lia].
    unfold reclaim. simpl.
    rewrite (map_lookup_filter_Some_2 _ _ key d') by done.
    by rewrite lookup_delete_ne, Hx.
  - destruct Hkeep as [Hne | (o' & [= <-] & Hge)]; [|lia].
    unfold reclaim. simpl.
    rewrite (map_lookup_filter_Some_2 _ _ key d') by done.
    by rewrite lookup_delete_ne, Hx.
  - simpl. rewrite Hk.
    destruct (decide (d = d')) as [<- | Hne].
    + by rewrite lookup_insert_eq.
    + by rewrite lookup_insert_ne, Hx.
Qed.

Lemma fetch_data_release_witness :
  let w1 := (write_input (DakotaInput_init ∅) "a.in" (Some 140%N)
               example_world).2 in
  fetch_data (Str "140") (release 152%N w1) = (Ok 140%N, release 152%N w1).
Proof.
  intros w1. apply (fetch_data_release (Str "140") 152%N 140%N w1).
  - reflexivity.
  - left. discriminate.
Defined.

(** ** The callback *)

(** From the file to the driver.  After a successful [write_input] with the
    live driver [d], a request whose first analysis component is the key
    written for [d] reaches the [dakota_callback] method of [d]'s class:
    the user method for a subclass, the base method, which raises
    NotImplementedError, for a plain [DakotaBase]. *)
Theorem write_input_then_dakota_callback (P : process)
    (cb : string → N → gmap string val → M val)
    (kwargs : DakotaInput) (infile : string) (d : N) (o : object)
    (w w' : world) (request : gmap string val) (rest : list atom) :
  heap w !! d = Some o →
  write_input (DakotaInput_init kwargs) infile (Some d) w = (Ok tt, w') →
  request !! "analysis_components" = Some (List (Str (pretty d) :: rest)) →
  dakota_callback P cb request w'
  = match obj_class o with
    | DakotaBase => (raise_ "NotImplementedError" "dakota_callback", w')
    | Subclass name => cb name d request w'
    end.
Proof.
  intros Ho Hw Hreq. rewrite write_input_written in Hw.
  destruct (interface_conflict _ (Some d)); [discriminate |].
  injection Hw as <-.
  rewrite (dakota_callback_known P cb request _ (Str (pretty d)) d _ Hreq);
    [| done | done |].
  - unfold call_dakota_callback. simpl. by rewrite Ho.
  - unfold fetch_data, weak_getitem. simpl.
    by rewrite lookup_insert_eq, Ho.
Qed.

Lemma write_input_then_dakota_callback_witness :
  let w' := (write_input (DakotaInput_init ∅) "dakota.in" (Some 152%N)
               example_world).2 in
  dakota_callback example_process example_callback
    {["analysis_components" := List [Str "152"]]} w'
  = (raise_ "NotImplementedError" "dakota_callback", w').
Proof.
  intros w'.
  apply (write_input_then_dakota_callback example_process example_callback
           ∅ "dakota.in" 152%N (DakotaBase_init DakotaBase 1) example_world
           w' {["analysis_components" := List [Str "152"]]} []);
    reflexivity.
Defined.

(** The emptiness test is Python's truth test: a request whose
    analysis_components is [None], [0], the empty string or the empty list
    is answered with the logged RuntimeError of the missing components. *)
Theorem dakota_callback_falsy (P : process)
    (cb : string → N → gmap string val → M val)
    (kwargs : gmap string val) (acs : val) (w : world) :
  kwargs !! "analysis_components" = Some acs →
  acs = Atom None_ ∨ acs = Atom (Int 0) ∨ acs = Atom (Str "") ∨ acs = List [] →
  dakota_callback P cb kwargs w
  = (raise_ "RuntimeError" (no_analysis_components_msg P),
     logging_error (no_analysis_components_msg P) w).
Proof.
  intros Hk Hacs. unfold dakota_callback. rewrite Hk.
  by destruct Hacs as [-> | [-> | [-> | ->]]].
Qed.

Lemma dakota_callback_falsy_witness :
  dakota_callback example_process example_callback
    {["analysis_components" := Atom None_]} example_world
  = (raise_ "RuntimeError" "dakota_callback (4242): No analysis_components",
     logging_error "dakota_callback (4242): No analysis_components"
       example_world).
Proof.
  apply (dakota_callback_falsy example_process example_callback
           {["analysis_components" := Atom None_]} (Atom None_)
           example_world).
  - reflexivity.
  - by left.
Defined.


(** [dakota_callback] returns a value only when the first analysis
    component resolved to a live object of a user class and the method of
    that class returned it; in a registry that is in order, the component
    is the string of that object's address. *)
Theorem dakota_callback_returns (P : process)
    (cb : string → N → gmap string val → M val)
    (kwargs : gmap string val) (w w' : world) (v : val) :
  dakota_callback P cb kwargs w = (Ok v, w') →
  ∃ acs ident d o name,
    kwargs !! "analysis_components" = Some acs ∧
    getitem0 acs = Ok ident ∧
    fetch_data ident w = (Ok d, w) ∧
    heap w !! d = Some o ∧
    obj_class o = Subclass name ∧
    cb name d kwargs w = (Ok v, w') ∧
    (registry_ok w → ident = Str (pretty d)).
Proof.
  unfold dakota_callback. intros Hcb.
  destruct (kwargs !! "analysis_components") as [acs|] eqn:Hk; [|done].
  destruct (negb (truthy acs)); [done |].
  destruct (getitem0 acs) as [ident|] eqn:Hg; [|done].
  unfold fetch_data in *.
  destruct (weak_getitem ident w) as [d|e] eqn:Hf;
    [|by destruct (String.eqb _ _)].
  unfold call_dakota_callback in Hcb.
  destruct (heap w !! d) as [o|] eqn:Ho; [|done].
  destruct (obj_class o) as [|name] eqn:Hc; [done |].
  exists acs, ident, d, o, name. rewrite Hf. repeat split; try done.
  intros Hok. unfold weak_getitem in Hf.
  destruct (_USER_DATA w !! ident) as [x|] eqn:Hx; [|done].
  destruct (heap w !! x); [|done]. injection Hf as ->.
  by destruct (Hok _ _ Hx).
Qed.

Lemma dakota_callback_returns_witness :
  let w := (write_input (DakotaInput_init ∅) "dakota.in" (Some 140%N)
              example_world).2 in
  let kwargs : gmap string val :=
    {["analysis_components" := List [Str "140"]]} in
  ∃ acs ident d o name,
    kwargs !! "analysis_components" = Some acs ∧
    getitem0 acs = Ok ident ∧
    fetch_data ident w = (Ok d, w) ∧
    heap w !! d = Some o ∧
    obj_class o = Subclass name ∧
    example_callback name d kwargs w = (Ok (List [Int 7]), w) ∧
    (registry_ok w → ident = Str (pretty d)).
Proof.
  intros w kwargs.
  apply (dakota_callback_returns example_process example_callback kwargs w w
           (List [Int 7])).
  reflexivity.
Defined.

(** ** The runner *)

Lemma run_dakota_world (P : process)
    (pyDAKOTA : engine_call → _ExcInfo → world → Z * _ExcInfo)
    (infile : string) (mpi_comm : option communicator) (use_mpi : bool)
    (stdout stderr : option string) (w : world) :
  (run_dakota P pyDAKOTA infile mpi_comm use_mpi stdout stderr w).2
  = record_call (selected_call P infile mpi_comm use_mpi stdout stderr) w.
Proof.
  rewrite run_dakota_selected. simpl.
  destruct (pyDAKOTA _ _ _) as [err exc].
  destruct (negb (err =? 0)); [by destruct (exc_type exc) | done].
Qed.


(** A communicator passed to [run_dakota] is the one the engine gets: the
    engine is called once, through its MPI entry point, with that
    communicator, whatever the platform, [use_mpi] and the outcome are. *)
Theorem run_dakota_explicit_comm (P P' : process)
    (pyDAKOTA : engine_call → _ExcInfo → world → Z * _ExcInfo)
    (infile : string) (c : communicator) (use_mpi use_mpi' : bool)
    (stdout stderr : option string) (w : world) :
  engine_calls
    (run_dakota P pyDAKOTA infile (Some c) use_mpi stdout stderr w).2
  = engine_calls w ++ [pyDAKOTA_run_dakota_mpi infile c stdout stderr] ∧
  run_dakota P pyDAKOTA infile (Some c) use_mpi stdout stderr w
  = run_dakota P' pyDAKOTA infile (Some c) use_mpi' stdout stderr w.
Proof.
  split; [by rewrite run_dakota_world |].
  by rewrite !run_dakota_selected.
Qed.

(** Without a communicator [run_dakota] calls the engine once: through the
    plain entry point on cygwin and win32, when [use_mpi] is false, and
    when [boost.mpi] cannot be imported; through the MPI entry point with
    the world communicator of [boost.mpi] otherwise. *)
Theorem run_dakota_default_comm (P : process)
    (pyDAKOTA : engine_call → _ExcInfo → world → Z * _ExcInfo)
    (infile : string) (use_mpi : bool) (stdout stderr : option string)
    (w : world) :
  let calls :=
    engine_calls
      (run_dakota P pyDAKOTA infile None use_mpi stdout stderr w).2 in
  let plain := engine_calls w ++ [pyDAKOTA_run_dakota infile stdout stderr] in
  (sys_platform P = "cygwin" ∨ sys_platform P = "win32" → calls = plain) ∧
  (use_mpi = false → calls = plain) ∧
  (boost_mpi_world P = None → calls = plain) ∧
  (∀ world, sys_platform P ≠ "cygwin" → sys_platform P ≠ "win32" →
     use_mpi = true → boost_mpi_world P = Some world →
     calls
     = engine_calls w ++ [pyDAKOTA_run_dakota_mpi infile world stdout stderr]).
Proof.
  simpl. rewrite run_dakota_world. unfold selected_call, _HAVE_MPI. simpl.
  split; [|split; [|split]].
  - by intros [-> | ->].
  - intros ->. by rewrite andb_false_r.
  - intros ->. by destruct (_ && _).
  - intros world Hc%String.eqb_neq Hw%String.eqb_neq -> ->.
    by rewrite Hc, Hw.
Qed.

Lemma run_dakota_default_comm_witness :
  let windows := Process 77 "win32" (Communicator 0 1)
                   (Some (Communicator 0 1)) in
  engine_calls
    (run_dakota windows quiet_engine "dakota.in" None true None None
       example_world).2
  = [pyDAKOTA_run_dakota "dakota.in" None None] ∧
  engine_calls
    (run_dakota example_process quiet_engine "dakota.in" None false None None
       example_world).2
  = [pyDAKOTA_run_dakota "dakota.in" None None] ∧
  engine_calls
    (run_dakota (Process 78 "linux2" (Communicator 0 1) None) quiet_engine
       "dakota.in" None true None None example_world).2
  = [pyDAKOTA_run_dakota "dakota.in" None None] ∧
  engine_calls
    (run_dakota example_process quiet_engine "dakota.in" None true None None
       example_world).2
  = [pyDAKOTA_run_dakota_mpi "dakota.in" (Communicator 0 4) None None].
Proof.
  intros windows. split; [|split; [|split]].
  - destruct (run_dakota_default_comm windows quiet_engine "dakota.in" true
                None None example_world) as (H & _ & _ & _).
    apply H. by right.
  - destruct (run_dakota_default_comm example_process quiet_engine
                "dakota.in" false None None example_world) as (_ & H & _ & _).
    apply H. reflexivity.
  - destruct (run_dakota_default_comm
                (Process 78 "linux2" (Communicator 0 1) None) quiet_engine
                "dakota.in" true None None example_world) as (_ & _ & H & _).
    apply H. reflexivity.
  - destruct (run_dakota_default_comm example_process quiet_engine
                "dakota.in" true None None example_world) as (_ & _ & _ & H).
    apply (H (Communicator 0 4));
      [discriminate | discriminate | reflexivity | reflexivity].
Defined.

(** ** The driver *)

(** In the process of rank zero, a driver whose input has its own
    analysis_components line fails at the write: [DakotaBase.run_dakota]
    raises the RuntimeError of the conflict, the engine is not called and
    the driver is not registered. *)
Theorem DakotaBase_run_dakota_conflict (P : process)
    (pyDAKOTA : engine_call → _ExcInfo → world → Z * _ExcInfo)
    (self : N) (infile : string) (mpi_comm : option communicator)
    (use_mpi : bool) (stdout stderr : option string) (w : world)
    (o : object) (kwargs : DakotaInput) (iface : list string)
    (line : string) :
  Get_rank (comm P) = 0 →
  heap w !! self = Some o →
  obj_input o = Some (DakotaInput_init kwargs) →
  kwargs !! "interface" = Some iface →
  line ∈ iface →
  contains "analysis_components" line = true →
  let r := DakotaBase_run_dakota P pyDAKOTA self infile mpi_comm use_mpi
             stdout stderr w in
  r.1 = raise_ "RuntimeError"
          "Cannot specify both analysis_components and data" ∧
  engine_calls r.2 = engine_calls w ∧
  _USER_DATA r.2 = _USER_DATA w.
Proof.
  intros Hrank Ho Hin Hi Hl Hc. simpl.
  unfold DakotaBase_run_dakota, and_then, bind.
  rewrite Hrank, Ho, Hin, write_input_written. simpl.
  unfold interface_conflict.
  rewrite (DakotaInput_init_lookup kwargs _ default_interface) by done.
  rewrite Hi. simpl.
  assert (existsb (contains "analysis_components") iface = true) as ->; [|done].
  apply existsb_exists. exists line. by rewrite <- list_elem_of_In.
Qed.

Lemma DakotaBase_run_dakota_conflict_witness :
  let kwargs : DakotaInput :=
    {["interface" := ["python"; "analysis_components = 'mine'"]]} in
  let w := World {[7%N := Object (Subclass "Mine")
                            (Some (DakotaInput_init kwargs)) 1]}
             ∅ ∅ [] [] in
  let r := DakotaBase_run_dakota example_process quiet_engine 7%N
             "dakota.in" None true None None w in
  r.1 = raise_ "RuntimeError"
          "Cannot specify both analysis_components and data" ∧
  engine_calls r.2 = engine_calls w ∧
  _USER_DATA r.2 = _USER_DATA w.
Proof.
  intros kwargs w.
  apply (DakotaBase_run_dakota_conflict example_process quiet_engine 7%N
           "dakota.in" None true None None w
           (Object (Subclass "Mine") (Some (DakotaInput_init kwargs)) 1)
           kwargs ["python"; "analysis_components = 'mine'"]
           "analysis_components = 'mine'");
    [reflexivity | reflexivity | reflexivity | reflexivity | set_solver
    | reflexivity].
Defined.




